(** * Sensor: rolling statistics, hysteresis flags and distance lookup

    A shallow embedding of [Sensor.h] / [Sensor.c] (Vishay VCNL proximity /
    ambient-light sensor conditioning).

    Modelling conventions:
    - C unsigned and signed integers are [Z] with their wrap-around written
      out ([u32]) and the conversion of a [uint32_t] to [int] as gcc does it
      on a 32-bit target ([to_int32]).
    - [double] is the primitive binary64 type [float]; [(double) x] of a
      non-negative integer is [dbl].
    - Undefined behaviour (an array read or write out of bounds, a
      floating-to-[uint16_t] conversion of a value out of range) makes the
      operation return [None]: every fallible operation is in the option
      monad of stdpp.
    - Arrays are [list Z] accessed by [arr_get] / [arr_set]. *)

From stdpp Require Import base list option.
From Stdlib Require Import ZArith Lia Floats Uint63.

Open Scope Z_scope.

(** ** Constants of [Sensor.h] *)

Definition SENSOR_HIST_LEN : Z := 50.
Definition PS_WINDOW : Z := 25.
Definition ALS_WINDOW : Z := 25.
Definition DIST_LOOKUP_LEN : Z := 16.

(** [distanceTable] of [Sensor.c]. *)
Definition distanceTable : list Z :=
  [0; 2; 4; 6; 8; 10; 12; 14; 16; 18; 20; 22; 24; 26; 28; 30].

(** ** C arithmetic *)

(** Reduction modulo 2^32 of [uint32_t] arithmetic. *)
Definition u32 (x : Z) : Z := x mod 2 ^ 32.

(** [(int) x] for a [uint32_t] [x] (two's complement, as gcc defines it). *)
Definition to_int32 (x : Z) : Z := if x <? 2 ^ 31 then x else x - 2 ^ 32.

(** Array read [a[i]]; [None] when [i] is out of bounds. *)
Definition arr_get (a : list Z) (i : Z) : option Z :=
  if i <? 0 then None else a !! Z.to_nat i.

(** Array write [a[i] = v]; [None] when [i] is out of bounds. *)
Definition arr_set (a : list Z) (i v : Z) : option (list Z) :=
  if (0 <=? i) && (i <? Z.of_nat (length a)) then Some (<[Z.to_nat i := v]> a)
  else None.

(** ** Doubles *)

(** [(double) z] for an integer [0 <= z < 2^63]. *)
Definition dbl (z : Z) : float := PrimFloat.of_uint63 (Uint63.of_Z z).

Definition fadd (x y : float) : float := PrimFloat.add x y.
Definition fsub (x y : float) : float := PrimFloat.sub x y.
Definition fmul (x y : float) : float := PrimFloat.mul x y.
Definition fdiv (x y : float) : float := PrimFloat.div x y.
Definition fsqrt (x : float) : float := PrimFloat.sqrt x.

(** [pow(x, 2)]: the correctly rounded square [x * x]. *)
Definition c_pow2 (x : float) : float := fmul x x.

(** The integer part of a non-negative finite double, read from its
    mantissa and exponent ([x = M * 2^(se - 2101 - 53)]). *)
Definition trunc63 (x : float) : int :=
  let (r, se) := PrimFloat.frshiftexp x in
  let M := PrimFloat.normfr_mantissa r in
  if (se <? 2154)%uint63 then (M >> (2154 - se))%uint63
  else (M << (se - 2154))%uint63.

(** [(uint16_t) floor(x)]: [Some q] exactly when [q] is an integer in
    [0 .. 65535] with [q <= x < q + 1] (IEEE comparisons); otherwise the
    conversion is out of range (or [x] is NaN) and the behaviour is
    undefined. *)
Definition floor_cast_u16 (x : float) : option Z :=
  let q := trunc63 x in
  if (q <=? 65535)%uint63 && PrimFloat.leb (PrimFloat.of_uint63 q) x
     && PrimFloat.ltb x (PrimFloat.of_uint63 (q + 1)%uint63)
  then Some (Uint63.to_Z q) else None.

(** ** The sensor object *)

(** [Sensor_t]; [proxTable] stands for the array the pointer refers to. *)
Record Sensor := mkSensor {
  index : Z;
  sampleCount : Z;
  proxTable : list Z;
  psHist : list Z;
  alsHist : list Z;
  psMean : Z;
  psSTD : float;
  alsMean : Z;
  alsSTD : float;
  estimatedDistance : float;
  psProxMin : Z;
  psProxMax : Z;
  inProximity : Z;
  isBlocked : Z;
  psWindowSum : Z;
  alsWindowSum : Z
}.

(** [Reset_Sensor]. *)
Definition Reset_Sensor (s : Sensor) : Sensor :=
  {| index := index s;
     sampleCount := 0;
     proxTable := proxTable s;
     psHist := repeat 0 (Z.to_nat SENSOR_HIST_LEN);
     alsHist := repeat 0 (Z.to_nat SENSOR_HIST_LEN);
     psMean := 0;
     psSTD := dbl 0;
     alsMean := 0;
     alsSTD := dbl 0;
     estimatedDistance := estimatedDistance s;
     psProxMin := psProxMin s;
     psProxMax := psProxMax s;
     inProximity := 0;
     isBlocked := 0;
     psWindowSum := 0;
     alsWindowSum := 0 |}.

(** [Init_Sensor]: the four assignments, then [Reset_Sensor]. *)
Definition Init_Sensor (s : Sensor) (idx mn mx : Z) (pt : list Z) : Sensor :=
  Reset_Sensor
    {| index := idx;
       sampleCount := sampleCount s;
       proxTable := pt;
       psHist := psHist s;
       alsHist := alsHist s;
       psMean := psMean s;
       psSTD := psSTD s;
       alsMean := alsMean s;
       alsSTD := alsSTD s;
       estimatedDistance := estimatedDistance s;
       psProxMin := mn;
       psProxMax := mx;
       inProximity := inProximity s;
       isBlocked := isBlocked s;
       psWindowSum := psWindowSum s;
       alsWindowSum := alsWindowSum s |}.

(** ** [Distance_Lookup] *)

(** The [for (i = 0; i < tableLen; i++)] scan; [fuel] bounds the iterations
    of the [uint8_t] counter. *)
Fixpoint dl_scan (psVal : Z) (proxTable distTable : list Z) (tableLen i : Z)
    (fuel : nat) : option float :=
  match fuel with
  | O => None
  | S fuel' =>
      if i <? tableLen then
        p ← arr_get proxTable i;
        if p <=? psVal then
          if i =? 0 then d ← arr_get distTable i; Some (dbl d)
          else
            d0 ← arr_get distTable (i - 1);
            p0 ← arr_get proxTable (i - 1);
            d1 ← arr_get distTable i;
            p1 ← arr_get proxTable i;
            Some (fadd (dbl d0)
                    (fdiv (fmul (fsub (dbl psVal) (dbl p0)) (fsub (dbl d1) (dbl d0)))
                          (fsub (dbl p1) (dbl p0))))
        else dl_scan psVal proxTable distTable tableLen (i + 1) fuel'
      else
        d ← arr_get distTable (tableLen - 1); Some (dbl d)
  end.

Definition Distance_Lookup (psVal : Z) (proxTable distTable : list Z)
    (tableLen : Z) : option float :=
  dl_scan psVal proxTable distTable tableLen 0 256.

(** ** Pieces of [Update_Sensor] *)

(** Rolling PS window sum (lines 58-68). *)
Definition ps_window_update (s : Sensor) (psVal : Z) : option Z :=
  if sampleCount s <? PS_WINDOW then Some (u32 (psWindowSum s + psVal))
  else
    h ← arr_get (psHist s) (u32 (sampleCount s - PS_WINDOW) mod SENSOR_HIST_LEN);
    Some (u32 (u32 (psWindowSum s - h) + psVal)).

(** Rolling ALS window sum (lines 70-79). *)
Definition als_window_update (s : Sensor) (alsVal : Z) : option Z :=
  if sampleCount s <? ALS_WINDOW then Some (u32 (alsWindowSum s + alsVal))
  else
    h ← arr_get (alsHist s) (u32 (sampleCount s - ALS_WINDOW) mod SENSOR_HIST_LEN);
    Some (u32 (alsWindowSum s + (alsVal - h))).

(** [meanDouble] of the PS channel (lines 87-90). *)
Definition ps_mean_double (sum sc : Z) : float :=
  if PS_WINDOW <=? u32 (sc + 1) then fdiv (dbl sum) (dbl PS_WINDOW)
  else fdiv (dbl sum) (dbl (u32 (sc + 1))).

(** [meanDouble] of the ALS channel (lines 112-115). *)
Definition als_mean_double (sum sc : Z) : float :=
  if ALS_WINDOW - 1 <=? sc then fdiv (dbl sum) (dbl ALS_WINDOW)
  else fdiv (dbl sum) (dbl (u32 (sc + 1))).

(** The standard-deviation loop (lines 99-108): returns [errorSum] and the
    final [i]; [sci] is [(int) sensor->sampleCount]. *)
Fixpoint std_loop (hist : list Z) (meanD : float) (sci i : Z) (fuel : nat)
    (errorSum : float) : option (float * Z) :=
  match fuel with
  | O => Some (errorSum, i)
  | S fuel' =>
      if 0 <=? sci - i then
        h ← arr_get hist ((sci - i) mod SENSOR_HIST_LEN);
        std_loop hist meanD sci (i + 1) fuel'
          (fadd errorSum (c_pow2 (fsub (dbl h) meanD)))
      else Some (errorSum, i)
  end.

(** [sqrt(errorSum / i)] over a window of length [window]. *)
Definition window_std (window : Z) (hist : list Z) (meanD : float) (sc : Z)
    : option float :=
  r ← std_loop hist meanD (to_int32 sc) 0 (Z.to_nat window) (dbl 0);
  Some (fsqrt (fdiv r.1 (dbl r.2))).

(** The [inProximity] update (lines 135-150). *)
Definition update_inProximity (inP psVal mn mx : Z) : Z :=
  if negb (inP =? 0) && (psVal <=? mn) then 0
  else if (inP =? 0) && (mx <=? psVal) then 1
  else inP.

(** The [isBlocked] update (lines 153-160). *)
Definition update_isBlocked (blk inP alsM : Z) (alsS : float) : Z :=
  if (blk =? 0) && negb (inP =? 0) && (alsM =? 0) && PrimFloat.eqb alsS (dbl 0)
  then 1
  else if negb (blk =? 0) && (inP =? 0) then 0
  else blk.

(** [Update_Sensor]. *)
Definition Update_Sensor (s : Sensor) (psVal alsVal : Z) : option Sensor :=
  let sc := sampleCount s in
  psWS ← ps_window_update s psVal;
  alsWS ← als_window_update s alsVal;
  let ind := sc mod SENSOR_HIST_LEN in
  psH ← arr_set (psHist s) ind psVal;
  alsH ← arr_set (alsHist s) ind alsVal;
  let psMeanD := ps_mean_double psWS sc in
  psM ← floor_cast_u16 psMeanD;
  dist ← Distance_Lookup psM (proxTable s) distanceTable DIST_LOOKUP_LEN;
  psS ← window_std PS_WINDOW psH psMeanD sc;
  let alsMeanD := als_mean_double alsWS sc in
  alsM ← floor_cast_u16 alsMeanD;
  alsS ← window_std ALS_WINDOW alsH alsMeanD sc;
  let inP := update_inProximity (inProximity s) psVal (psProxMin s) (psProxMax s) in
  let blk := update_isBlocked (isBlocked s) inP alsM alsS in
  Some {| index := index s;
          sampleCount := u32 (sc + 1);
          proxTable := proxTable s;
          psHist := psH;
          alsHist := alsH;
          psMean := psM;
          psSTD := psS;
          alsMean := alsM;
          alsSTD := alsS;
          estimatedDistance := dist;
          psProxMin := psProxMin s;
          psProxMax := psProxMax s;
          inProximity := inP;
          isBlocked := blk;
          psWindowSum := psWS;
          alsWindowSum := alsWS |}.

(** A sequence of [Update_Sensor] calls on (proximity, ambient) pairs. *)
Fixpoint run (s : Sensor) (samples : list (Z * Z)) : option Sensor :=
  match samples with
  | [] => Some s
  | (p, a) :: rest => s' ← Update_Sensor s p a; run s' rest
  end.

(** Table entry [l[i]] as a total function (the statements of the lookup
    theorems use it only for indices in bounds). *)
Definition tbl (l : list Z) (i : Z) : Z := l !!! Z.to_nat i.

(** ** Exhaustive check of the truncated mean *)

Definition floor_cast_ok (x : float) (q : int) : bool :=
  (trunc63 x =? q)%uint63 && (q <=? 65535)%uint63 &&
  PrimFloat.leb (PrimFloat.of_uint63 q) x &&
  PrimFloat.ltb x (PrimFloat.of_uint63 (q + 1)%uint63).

(** Checks the quotients [s / k] for [s] in a block of [2^n] values from
    [s], up to [bound]. *)
Fixpoint floor_div_chk (n : nat) (k s bound : int) : bool :=
  match n with
  | O => if (s <=? bound)%uint63 then
           floor_cast_ok (PrimFloat.div (PrimFloat.of_uint63 s) (PrimFloat.of_uint63 k))
             (s / k)%uint63
         else true
  | S n' => if (bound <? s)%uint63 then true
            else floor_div_chk n' k s bound &&
                 floor_div_chk n' k (s + (1 << Uint63.of_Z (Z.of_nat n')))%uint63 bound
  end.

(** ** Reference definitions for the statements *)

(** Sum of a list of integers. *)
Fixpoint sum_Z (l : list Z) : Z :=
  match l with [] => 0 | x :: l' => x + sum_Z l' end.

(** Brute-force recomputation: the sum of the last [min(length xs, W)]
    elements of [xs]. *)
Definition window_sum (W : nat) (xs : list Z) : Z :=
  sum_Z (drop (length xs - W) xs).

(** The [inProximity] flags produced by feeding proximity samples to
    [update_inProximity] from [inP]. *)
Definition prox_trace (mn mx inP : Z) (l : list (Z * Z)) : Z :=
  fold_left (fun f x => update_inProximity f x.1 mn mx) l inP.

(** Invariant of a sensor [s] reached from the reset sensor [r] by the
    samples [l] (fewer than 2^32 of them). *)
Record run_inv (r : Sensor) (l : list (Z * Z)) (s : Sensor) : Prop := {
  inv_count : sampleCount s = Z.of_nat (length l);
  inv_index : index s = index r;
  inv_table : proxTable s = proxTable r;
  inv_min : psProxMin s = psProxMin r;
  inv_max : psProxMax s = psProxMax r;
  inv_ps_len : length (psHist s) = Z.to_nat SENSOR_HIST_LEN;
  inv_als_len : length (alsHist s) = Z.to_nat SENSOR_HIST_LEN;
  inv_ps_hist : forall t : nat, (t < length l < t + 50)%nat ->
    psHist s !! (t mod 50)%nat = (map fst l) !! t;
  inv_als_hist : forall t : nat, (t < length l < t + 50)%nat ->
    alsHist s !! (t mod 50)%nat = (map snd l) !! t;
  inv_ps_sum : psWindowSum s = window_sum 25 (map fst l);
  inv_als_sum : alsWindowSum s = window_sum 25 (map snd l);
  inv_ps_mean : l <> [] ->
    psMean s = psWindowSum s / Z.min (Z.of_nat (length l)) PS_WINDOW;
  inv_als_mean : l <> [] ->
    alsMean s = alsWindowSum s / Z.min (Z.of_nat (length l)) ALS_WINDOW;
  inv_prox : inProximity s = prox_trace (psProxMin r) (psProxMax r) 0 l;
  inv_blocked : isBlocked s <> 0 -> inProximity s <> 0
}.

(** A sample pair in the range of the [uint16_t] parameters. *)
Definition sample_ok (x : Z * Z) : Prop := 0 <= x.1 <= 65535 /\ 0 <= x.2 <= 65535.

(** The [inProximity] flag observed after each of the calls of a run. *)
Definition prox_after (s : Sensor) (samples : list (Z * Z)) : list (option Z) :=
  map (fun k => option_map inProximity (run s (take k samples)))
    (seq 1 (length samples)).

(** ** Concrete inputs *)

(** A calibration table of 16 decreasing proximity counts. *)
Definition demo_proxTable : list Z :=
  [1000; 800; 600; 450; 350; 270; 210; 160; 120; 90; 70; 50; 35; 25; 15; 10].

(** A structure with leftover contents, as [Init_Sensor] or [Reset_Sensor]
    may receive it. *)
Definition demo_sensor : Sensor :=
  {| index := 0; sampleCount := 7; proxTable := demo_proxTable;
     psHist := []; alsHist := []; psMean := 3; psSTD := dbl 3;
     alsMean := 0; alsSTD := dbl 0; estimatedDistance := dbl 9;
     psProxMin := 5; psProxMax := 10; inProximity := 1; isBlocked := 1;
     psWindowSum := 3; alsWindowSum := 4 |}.

(** Two close, dark samples. *)
Definition demo_samples : list (Z * Z) := [(12, 0); (12, 0)].

(** The state after [demo_samples] from reset, and one more call on it. *)
Definition demo_state : Sensor :=
  default (Reset_Sensor demo_sensor) (run (Reset_Sensor demo_sensor) demo_samples).

Definition demo_after (psVal alsVal : Z) : Sensor :=
  default demo_state (Update_Sensor demo_state psVal alsVal).

(** The proximity samples [0,0,0,12,12,12,4,4,4] with ambient value 50. *)
Definition scenario_samples : list (Z * Z) :=
  map (fun p => (p, 50)) [0; 0; 0; 12; 12; 12; 4; 4; 4].

(** The population standard deviation of a window as [Update_Sensor]
    computes it: squared deviations from the double mean, accumulated from
    the newest sample to the oldest. *)
Definition window_stddev (win : list Z) : float :=
  let k := dbl (Z.of_nat (length win)) in
  let meanD := fdiv (dbl (sum_Z win)) k in
  fsqrt (fdiv (fold_left (fun acc x => fadd acc (c_pow2 (fsub (dbl x) meanD)))
                 (rev win) (dbl 0)) k).


(** [s] with [estimatedDistance] replaced by [d]. *)
Definition with_estimatedDistance (s : Sensor) (d : float) : Sensor :=
  {| index := index s; sampleCount := sampleCount s; proxTable := proxTable s;
     psHist := psHist s; alsHist := alsHist s; psMean := psMean s;
     psSTD := psSTD s; alsMean := alsMean s; alsSTD := alsSTD s;
     estimatedDistance := d; psProxMin := psProxMin s; psProxMax := psProxMax s;
     inProximity := inProximity s; isBlocked := isBlocked s;
     psWindowSum := psWindowSum s; alsWindowSum := alsWindowSum s |}.


(** A flag holding 0 or 1. *)
Definition flag01 (f : Z) : Prop := f = 0 \/ f = 1.

(** The dark samples of [demo_samples] with a bright ambient value. *)
Definition demo_samples_bright : list (Z * Z) := [(12, 50); (12, 50)].

(** A sensor after 2^31 calls on the sample (7, 7). *)
Definition demo_big : Sensor :=
  {| index := 0; sampleCount := 2 ^ 31; proxTable := demo_proxTable;
     psHist := repeat 7 50; alsHist := repeat 7 50; psMean := 7; psSTD := dbl 0;
     alsMean := 7; alsSTD := dbl 0; estimatedDistance := dbl 0;
     psProxMin := 5; psProxMax := 10; inProximity := 0; isBlocked := 0;
     psWindowSum := 175; alsWindowSum := 175 |}.

(** A sensor after 2^32 - 1 calls on the sample (7, 7). *)
Definition demo_wrapped : Sensor :=
  {| index := 0; sampleCount := 2 ^ 32 - 1; proxTable := demo_proxTable;
     psHist := repeat 7 50; alsHist := repeat 7 50; psMean := 7; psSTD := dbl 0;
     alsMean := 7; alsSTD := dbl 0; estimatedDistance := dbl 0;
     psProxMin := 5; psProxMax := 10; inProximity := 0; isBlocked := 0;
     psWindowSum := 175; alsWindowSum := 175 |}.

(** ** Lemmas on the C arrays *)

Lemma arr_get_tbl (l : list Z) (i : Z) :
  0 <= i < Z.of_nat (length l) -> arr_get l i = Some (tbl l i).
Proof.
  intros Hi. unfold arr_get, tbl.
  destruct (Z.ltb_spec i 0); [lia|].
  apply list_lookup_lookup_total_lt. lia.
Qed.

Lemma arr_get_neg (l : list Z) (i : Z) : i < 0 -> arr_get l i = None.
Proof. intros Hi. unfold arr_get. destruct (Z.ltb_spec i 0); [done|lia]. Qed.

Lemma arr_get_out (l : list Z) (i : Z) :
  Z.of_nat (length l) <= i -> arr_get l i = None.
Proof.
  intros Hi. unfold arr_get. destruct (Z.ltb_spec i 0); [done|].
  apply lookup_ge_None_2. lia.
Qed.

(** ** [Distance_Lookup] *)

Section DistanceLookup.
Variables (psVal : Z) (pt dt : list Z) (tableLen : Z).

(** One step of the scan past an entry the value is below. *)
Lemma dl_scan_skip1 (i : Z) (fuel : nat) :
  0 <= i < tableLen -> tableLen <= Z.of_nat (length pt) ->
  psVal < tbl pt i ->
  dl_scan psVal pt dt tableLen i (S fuel) = dl_scan psVal pt dt tableLen (i + 1) fuel.
Proof.
  intros Hi Hpt Hlt. cbn [dl_scan].
  destruct (Z.ltb_spec i tableLen); [|lia].
  rewrite (arr_get_tbl pt i) by lia. cbn -[tbl].
  destruct (Z.leb_spec (tbl pt i) psVal); [lia|done].
Qed.

Lemma dl_scan_skip (m : nat) (i : Z) (fuel : nat) :
  0 <= i -> i + Z.of_nat m <= tableLen -> tableLen <= Z.of_nat (length pt) ->
  (forall j, i <= j < i + Z.of_nat m -> psVal < tbl pt j) ->
  dl_scan psVal pt dt tableLen i (m + fuel) =
  dl_scan psVal pt dt tableLen (i + Z.of_nat m) fuel.
Proof.
  revert i. induction m as [|m IH]; intros i Hi Hm Hpt Hbelow.
  - by rewrite Z.add_0_r.
  - cbn [Nat.add]. rewrite dl_scan_skip1 by (try apply Hbelow; lia).
    rewrite IH by (try (intros; apply Hbelow); lia).
    f_equal. lia.
Qed.

Lemma Distance_Lookup_skip (i : Z) :
  0 <= i <= tableLen -> tableLen <= 255 -> tableLen <= Z.of_nat (length pt) ->
  (forall j, 0 <= j < i -> psVal < tbl pt j) ->
  Distance_Lookup psVal pt dt tableLen =
  dl_scan psVal pt dt tableLen i (256 - Z.to_nat i).
Proof.
  intros Hi Hlen Hpt Hbelow. unfold Distance_Lookup.
  replace 256%nat with (Z.to_nat i + (256 - Z.to_nat i))%nat at 1 by lia.
  rewrite dl_scan_skip by (try (intros; apply Hbelow); lia).
  f_equal. lia.
Qed.

(** The scan from index [i] ends with a value when both tables hold at
    least [tableLen] entries and [tableLen >= 1]. *)
Lemma dl_scan_some (m : nat) (i : Z) (fuel : nat) :
  1 <= tableLen -> tableLen <= Z.of_nat (length pt) ->
  tableLen <= Z.of_nat (length dt) ->
  0 <= i -> i + Z.of_nat m = tableLen -> (m < fuel)%nat ->
  exists d, dl_scan psVal pt dt tableLen i fuel = Some d.
Proof.
  revert i fuel. induction m as [|m IH]; intros i fuel H1 Hpt Hdt Hi Hm Hf;
    (destruct fuel as [|fuel]; [lia|]); cbn [dl_scan].
  - destruct (Z.ltb_spec i tableLen); [lia|].
    rewrite (arr_get_tbl dt (tableLen - 1)) by lia. by eexists.
  - destruct (Z.ltb_spec i tableLen); [|lia].
    rewrite (arr_get_tbl pt i) by lia. cbn -[tbl].
    destruct (Z.leb_spec (tbl pt i) psVal).
    + destruct (Z.eqb_spec i 0).
      * rewrite (arr_get_tbl dt i) by lia. by eexists.
      * rewrite (arr_get_tbl dt (i - 1)), (arr_get_tbl pt (i - 1)),
          (arr_get_tbl dt i) by lia.
        by eexists.
    + apply IH; lia.
Qed.
End DistanceLookup.

(** ** The truncated mean: [(uint16_t) floor((double) S / k)]

    For a window sum [S <= k * 65535] and a divisor [1 <= k <= 25] the
    rounded quotient never reaches the next integer, so the mean is [S / k].
    The fact is checked for every such pair with primitive arithmetic. *)

Lemma floor_cast_ok_sound (x : float) (q : int) :
  floor_cast_ok x q = true -> floor_cast_u16 x = Some (Uint63.to_Z q).
Proof.
  unfold floor_cast_ok, floor_cast_u16. intros H.
  apply andb_prop in H as [H H4]. apply andb_prop in H as [H H3].
  apply andb_prop in H as [H1 H2].
  apply Uint63.eqb_correct in H1. rewrite H1, H2, H3, H4. done.
Qed.

Lemma floor_div_chk_sound (n : nat) (k s bound : int) :
  floor_div_chk n k s bound = true ->
  (n < 63)%nat -> Uint63.to_Z s + 2 ^ Z.of_nat n <= Uint63.wB ->
  forall t, Uint63.to_Z s <= t < Uint63.to_Z s + 2 ^ Z.of_nat n ->
  t <= Uint63.to_Z bound ->
  floor_cast_ok (PrimFloat.div (PrimFloat.of_uint63 (Uint63.of_Z t)) (PrimFloat.of_uint63 k))
    (Uint63.of_Z t / k)%uint63 = true.
Proof.
  revert s. induction n as [|n IH]; intros s H Hn Hs t Ht Htb; cbn [floor_div_chk] in H.
  - assert (t = Uint63.to_Z s) as -> by (change (2 ^ Z.of_nat 0) with 1 in Ht; lia).
    rewrite Uint63.of_to_Z.
    destruct (s <=? bound)%uint63 eqn:E; [done|].
    assert ((s <=? bound)%uint63 = true) by (apply Uint63.leb_spec; lia).
    congruence.
  - destruct (bound <? s)%uint63 eqn:E.
    + apply Uint63.ltb_spec in E. lia.
    + apply andb_prop in H as [H1 H2].
      assert (Hpow : Uint63.to_Z (1 << Uint63.of_Z (Z.of_nat n))%uint63 = 2 ^ Z.of_nat n).
      { rewrite Uint63.lsl_spec, Uint63.of_Z_spec.
        unfold Uint63.wB, Uint63.size in *.
        rewrite (Z.mod_small (Z.of_nat n)) by lia.
        change (Uint63.to_Z 1) with 1. rewrite Z.mul_1_l.
        apply Z.mod_small. split; [apply Z.pow_nonneg; lia|].
        apply Z.pow_lt_mono_r; lia. }
      rewrite Nat2Z.inj_succ, Z.pow_succ_r in Hs, Ht by lia.
      assert (0 < 2 ^ Z.of_nat n) by (apply Z.pow_pos_nonneg; lia).
      destruct (Z.lt_ge_cases t (Uint63.to_Z s + 2 ^ Z.of_nat n)).
      * apply (IH s); auto; lia.
      * assert (Hsum : Uint63.to_Z (s + (1 << Uint63.of_Z (Z.of_nat n)))%uint63
                       = Uint63.to_Z s + 2 ^ Z.of_nat n).
        { rewrite Uint63.add_spec, Hpow. apply Z.mod_small.
          pose proof (Uint63.to_Z_bounded s). lia. }
        apply (IH _ H2); [lia| rewrite Hsum; lia | rewrite Hsum; lia | done].
Qed.

Lemma floor_div_all :
  forallb (fun k => floor_div_chk 21 (Uint63.of_Z k) 0 (Uint63.of_Z (k * 65535)))
    (map Z.of_nat (seq 1 25)) = true.
Proof. vm_compute. reflexivity. Qed.

Lemma mean_floor (S k : Z) :
  1 <= k <= 25 -> 0 <= S <= k * 65535 ->
  floor_cast_u16 (fdiv (dbl S) (dbl k)) = Some (S / k).
Proof.
  intros Hk HS.
  pose proof floor_div_all as Hall. rewrite forallb_forall in Hall.
  assert (Hin : In k (map Z.of_nat (seq 1 25))).
  { apply in_map_iff. exists (Z.to_nat k). split; [lia|].
    apply in_seq. lia. }
  specialize (Hall k Hin). cbn beta in Hall.
  assert (HwB : Uint63.wB = 2 ^ 63) by reflexivity.
  assert (Hk' : Uint63.to_Z (Uint63.of_Z k) = k).
  { rewrite Uint63.of_Z_spec. apply Z.mod_small. lia. }
  assert (Hb : Uint63.to_Z (Uint63.of_Z (k * 65535)) = k * 65535).
  { rewrite Uint63.of_Z_spec. apply Z.mod_small. lia. }
  eapply floor_div_chk_sound with (t := S) in Hall;
    [| lia | cbn; lia | cbn; lia | lia].
  apply floor_cast_ok_sound in Hall.
  unfold fdiv, dbl. rewrite Hall. f_equal.
  rewrite Uint63.div_spec, Hk', Uint63.of_Z_spec, Z.mod_small by lia. done.
Qed.

(** ** What one [Update_Sensor] call does to the fields *)

Lemma Update_Sensor_Some (s s' : Sensor) (psVal alsVal : Z) :
  Update_Sensor s psVal alsVal = Some s' ->
  exists psH alsH psMD alsMD,
    ps_window_update s psVal = Some (psWindowSum s') /\
    als_window_update s alsVal = Some (alsWindowSum s') /\
    arr_set (psHist s) (sampleCount s mod SENSOR_HIST_LEN) psVal = Some psH /\
    arr_set (alsHist s) (sampleCount s mod SENSOR_HIST_LEN) alsVal = Some alsH /\
    psHist s' = psH /\ alsHist s' = alsH /\
    psMD = ps_mean_double (psWindowSum s') (sampleCount s) /\
    alsMD = als_mean_double (alsWindowSum s') (sampleCount s) /\
    floor_cast_u16 psMD = Some (psMean s') /\
    floor_cast_u16 alsMD = Some (alsMean s') /\
    Distance_Lookup (psMean s') (proxTable s) distanceTable DIST_LOOKUP_LEN
      = Some (estimatedDistance s') /\
    window_std PS_WINDOW psH psMD (sampleCount s) = Some (psSTD s') /\
    window_std ALS_WINDOW alsH alsMD (sampleCount s) = Some (alsSTD s') /\
    sampleCount s' = u32 (sampleCount s + 1) /\
    index s' = index s /\ proxTable s' = proxTable s /\
    psProxMin s' = psProxMin s /\ psProxMax s' = psProxMax s /\
    inProximity s' =
      update_inProximity (inProximity s) psVal (psProxMin s) (psProxMax s) /\
    isBlocked s' =
      update_isBlocked (isBlocked s) (inProximity s') (alsMean s') (alsSTD s').
Proof.
  unfold Update_Sensor. intros H.
  destruct (ps_window_update s psVal) as [psWS|] eqn:E1; [|done]; cbn [mbind option_bind] in H.
  destruct (als_window_update s alsVal) as [alsWS|] eqn:E2; [|done]; cbn [mbind option_bind] in H.
  destruct (arr_set (psHist s) _ psVal) as [psH|] eqn:E3; [|done]; cbn [mbind option_bind] in H.
  destruct (arr_set (alsHist s) _ alsVal) as [alsH|] eqn:E4; [|done]; cbn [mbind option_bind] in H.
  destruct (floor_cast_u16 (ps_mean_double psWS _)) as [psM|] eqn:E5; [|done];
    cbn [mbind option_bind] in H.
  destruct (Distance_Lookup psM _ _ _) as [dist|] eqn:E6; [|done]; cbn [mbind option_bind] in H.
  destruct (window_std PS_WINDOW psH _ _) as [psS|] eqn:E7; [|done]; cbn [mbind option_bind] in H.
  destruct (floor_cast_u16 (als_mean_double alsWS _)) as [alsM|] eqn:E8; [|done];
    cbn [mbind option_bind] in H.
  destruct (window_std ALS_WINDOW alsH _ _) as [alsS|] eqn:E9; [|done]; cbn [mbind option_bind] in H.
  injection H as <-. cbn.
  eexists psH, alsH, _, _. eauto 30.
Qed.

(** Unpacks [Update_Sensor_Some] with one name per fact. *)
Ltac update_facts H :=
  let psH := fresh "psH" in let alsH := fresh "alsH" in
  let psMD := fresh "psMD" in let alsMD := fresh "alsMD" in
  destruct (Update_Sensor_Some _ _ _ _ H)
    as (psH & alsH & psMD & alsMD & Eps & Eals & Eph & Eah & Hph & Hah & Hpmd & Hamd
        & Hpm & Ham & Hd & Hps & Has & Hsc & Hidx & Hpt & Hmn & Hmx & Hin & Hblk).

(** ** Window sums *)

Lemma sum_Z_app (a b : list Z) : sum_Z (a ++ b) = sum_Z a + sum_Z b.
Proof. induction a as [|x a IH]; cbn; lia. Qed.

Lemma sum_Z_bounds (xs : list Z) :
  Forall (fun x => 0 <= x <= 65535) xs ->
  0 <= sum_Z xs <= Z.of_nat (length xs) * 65535.
Proof.
  induction 1 as [|x xs Hx _ IH]; cbn [sum_Z length]; lia.
Qed.

Lemma window_sum_bounds (W : nat) (xs : list Z) :
  Forall (fun x => 0 <= x <= 65535) xs ->
  0 <= window_sum W xs <= Z.min (Z.of_nat (length xs)) (Z.of_nat W) * 65535.
Proof.
  intros H. unfold window_sum.
  pose proof (sum_Z_bounds (drop (length xs - W) xs)) as Hb.
  rewrite length_drop in Hb.
  assert (Forall (fun x => 0 <= x <= 65535) (drop (length xs - W) xs)) as Hd
    by (apply Forall_drop, H).
  specialize (Hb Hd). split; [lia|].
  etransitivity; [apply Hb|]. apply Z.mul_le_mono_nonneg_r; lia.
Qed.

Lemma window_sum_snoc_lt (W : nat) (xs : list Z) (x : Z) :
  (length xs < W)%nat ->
  window_sum W (xs ++ [x]) = window_sum W xs + x.
Proof.
  intros H. unfold window_sum. rewrite length_app. cbn [length].
  replace (length xs + 1 - W)%nat with 0%nat by lia.
  replace (length xs - W)%nat with 0%nat by lia.
  rewrite !drop_0, sum_Z_app. cbn. lia.
Qed.

Lemma window_sum_snoc_ge (W : nat) (xs : list Z) (x y : Z) :
  (W <= length xs)%nat -> (1 <= W)%nat ->
  xs !! (length xs - W)%nat = Some y ->
  window_sum W xs = y + sum_Z (drop (S (length xs - W)) xs) /\
  window_sum W (xs ++ [x]) = sum_Z (drop (S (length xs - W)) xs) + x.
Proof.
  intros HW H1 Hy. unfold window_sum. split.
  - rewrite (drop_S _ _ _ Hy). done.
  - rewrite length_app. cbn [length].
    replace (length xs + 1 - W)%nat with (S (length xs - W)) by lia.
    rewrite drop_app_le by lia. rewrite sum_Z_app. cbn. lia.
Qed.

Lemma sum_Z_nonneg (xs : list Z) :
  Forall (fun x => 0 <= x <= 65535) xs -> 0 <= sum_Z xs.
Proof. intros H. apply sum_Z_bounds in H. lia. Qed.

(** ** The standard-deviation loop never leaves the history *)

Lemma std_loop_some (hist : list Z) (m : float) (sci i : Z) (fuel : nat)
    (acc : float) :
  length hist = Z.to_nat SENSOR_HIST_LEN ->
  exists r, std_loop hist m sci i fuel acc = Some r.
Proof.
  intros Hl. revert i acc. induction fuel as [|fuel IH]; intros i acc; cbn [std_loop].
  - by eexists.
  - destruct (Z.leb_spec 0 (sci - i)); [|by eexists].
    rewrite (arr_get_tbl hist) by (unfold SENSOR_HIST_LEN in *; rewrite Hl;
      pose proof (Z.mod_pos_bound (sci - i) 50); lia).
    cbn [mbind option_bind]. apply IH.
Qed.

Lemma window_std_some (window : Z) (hist : list Z) (m : float) (sc : Z) :
  length hist = Z.to_nat SENSOR_HIST_LEN ->
  exists r, window_std window hist m sc = Some r.
Proof.
  intros Hl. unfold window_std.
  destruct (std_loop_some hist m (to_int32 sc) 0 (Z.to_nat window) (dbl 0) Hl)
    as [r ->].
  by eexists.
Qed.

(** ** The invariant of a run from reset *)

Lemma run_inv_reset (s0 : Sensor) : run_inv (Reset_Sensor s0) [] (Reset_Sensor s0).
Proof.
  constructor; cbn; try done; try lia.
Qed.

Lemma u32_small (x : Z) : 0 <= x < 2 ^ 32 -> u32 x = x.
Proof. intros H. unfold u32. apply Z.mod_small, H. Qed.

Lemma arr_get_nat (l : list Z) (i : nat) : arr_get l (Z.of_nat i) = l !! i.
Proof.
  unfold arr_get. destruct (Z.ltb_spec (Z.of_nat i) 0); [lia|].
  by rewrite Nat2Z.id.
Qed.

Lemma arr_set_in (l : list Z) (i : nat) (v : Z) :
  (i < length l)%nat -> arr_set l (Z.of_nat i) v = Some (<[i := v]> l).
Proof.
  intros Hi. unfold arr_set.
  destruct (Z.leb_spec 0 (Z.of_nat i)); [|lia].
  destruct (Z.ltb_spec (Z.of_nat i) (Z.of_nat (length l))); [|lia].
  by rewrite Nat2Z.id.
Qed.

Lemma Forall_fst (l : list (Z * Z)) :
  Forall sample_ok l -> Forall (fun x => 0 <= x <= 65535) (map fst l).
Proof.
  rewrite !Forall_forall. intros H x Hx. apply in_map_iff in Hx as (y & <- & Hy).
  apply H, Hy.
Qed.

Lemma Forall_snd (l : list (Z * Z)) :
  Forall sample_ok l -> Forall (fun x => 0 <= x <= 65535) (map snd l).
Proof.
  rewrite !Forall_forall. intros H x Hx. apply in_map_iff in Hx as (y & <- & Hy).
  apply H, Hy.
Qed.

Lemma update_isBlocked_consistent (blk inP alsM : Z) (alsS : float) :
  (update_isBlocked blk inP alsM alsS <> 0 -> inP <> 0) /\
  (blk = 0 -> update_isBlocked blk inP alsM alsS <> 0 -> inP <> 0) /\
  (inP = 0 -> update_isBlocked blk inP alsM alsS = 0).
Proof.
  unfold update_isBlocked.
  destruct (Z.eqb_spec blk 0), (Z.eqb_spec inP 0), (Z.eqb_spec alsM 0),
    (PrimFloat.eqb alsS (dbl 0)); cbn; lia.
Qed.

Lemma run_app (s : Sensor) (l1 l2 : list (Z * Z)) :
  run s (l1 ++ l2) = s1 ← run s l1; run s1 l2.
Proof.
  revert s. induction l1 as [|[p a] l1 IH]; intros s; cbn; [done|].
  destruct (Update_Sensor s p a); cbn; [apply IH|done].
Qed.

Lemma ps_mean_double_eq (sum n : Z) :
  0 <= n -> n + 1 < 2 ^ 32 ->
  ps_mean_double sum n = fdiv (dbl sum) (dbl (Z.min (n + 1) PS_WINDOW)).
Proof.
  intros H0 H1. unfold ps_mean_double, PS_WINDOW. rewrite u32_small by lia.
  destruct (Z.leb_spec 25 (n + 1)); do 3 f_equal; lia.
Qed.

Lemma als_mean_double_eq (sum n : Z) :
  0 <= n -> n + 1 < 2 ^ 32 ->
  als_mean_double sum n = fdiv (dbl sum) (dbl (Z.min (n + 1) ALS_WINDOW)).
Proof.
  intros H0 H1. unfold als_mean_double, ALS_WINDOW. rewrite u32_small by lia.
  destruct (Z.leb_spec (25 - 1) n); do 3 f_equal; lia.
Qed.

Lemma prox_trace_snoc (mn mx inP : Z) (l : list (Z * Z)) (x : Z * Z) :
  prox_trace mn mx inP (l ++ [x]) =
  update_inProximity (prox_trace mn mx inP l) x.1 mn mx.
Proof. unfold prox_trace. by rewrite fold_left_app. Qed.

(** Writing slot [n mod 50] keeps the last 50 samples in their slots. *)
Lemma hist_snoc (h xs : list Z) (x : Z) :
  length h = 50%nat ->
  (forall t : nat, (t < length xs < t + 50)%nat -> h !! (t mod 50)%nat = xs !! t) ->
  forall t : nat, (t < length (xs ++ [x]) < t + 50)%nat ->
  <[(length xs mod 50)%nat := x]> h !! (t mod 50)%nat = (xs ++ [x]) !! t.
Proof.
  intros Hh Hxs t Ht. rewrite length_app in Ht. cbn [length] in Ht.
  destruct (Nat.eq_dec t (length xs)) as [->|Hne].
  - rewrite list_lookup_insert_eq by (rewrite Hh; apply Nat.mod_upper_bound; lia).
    rewrite lookup_app_r, Nat.sub_diag by lia. done.
  - rewrite list_lookup_insert_ne.
    + rewrite lookup_app_l by lia. apply Hxs. lia.
    + intros E. assert (t < length xs)%nat by lia.
      pose proof (Nat.div_mod_eq t 50). pose proof (Nat.div_mod_eq (length xs) 50).
      pose proof (Nat.mod_upper_bound t 50). pose proof (Nat.mod_upper_bound (length xs) 50).
      nia.
Qed.

Section Step.
Variables (r s : Sensor) (l : list (Z * Z)) (p a : Z).
Hypothesis Hinv : run_inv r l s.
Hypothesis Hn : Z.of_nat (length l) + 1 < 2 ^ 32.
Hypothesis Hl : Forall sample_ok l.
Hypothesis Hp : 0 <= p <= 65535.
Hypothesis Ha : 0 <= a <= 65535.

(** The evicted slot [(n - 25) mod 50] holds sample [n - 25]. *)
Lemma evicted_slot (h : list Z) (xs : list Z) :
  (25 <= length l)%nat -> length xs = length l ->
  (forall t : nat, (t < length l < t + 50)%nat -> h !! (t mod 50)%nat = xs !! t) ->
  exists y, arr_get h (u32 (Z.of_nat (length l) - 25) mod SENSOR_HIST_LEN) = Some y /\
            xs !! (length xs - 25)%nat = Some y.
Proof.
  intros H25 Hxs Hh.
  destruct (lookup_lt_is_Some_2 xs (length xs - 25)) as [y Hy]; [lia|].
  exists y. split; [|done].
  rewrite u32_small by lia. unfold SENSOR_HIST_LEN.
  replace (Z.of_nat (length l) - 25) with (Z.of_nat (length l - 25)) by lia.
  rewrite <- (Nat2Z.inj_mod _ 50), arr_get_nat, Hh by lia.
  by rewrite <- Hxs.
Qed.

Lemma ps_window_update_inv :
  ps_window_update s p = Some (window_sum 25 (map fst (l ++ [(p, a)]))).
Proof.
  unfold ps_window_update. rewrite (inv_count _ _ _ Hinv), (inv_ps_sum _ _ _ Hinv).
  rewrite map_app. cbn [map fst].
  pose proof (window_sum_bounds 25 _ (Forall_fst _ Hl)) as Hb.
  rewrite length_map in Hb.
  destruct (Z.ltb_spec (Z.of_nat (length l)) PS_WINDOW) as [Hlt|Hge];
    unfold PS_WINDOW in *.
  - rewrite window_sum_snoc_lt by (rewrite length_map; lia).
    rewrite u32_small by lia. done.
  - destruct (evicted_slot (psHist s) (map fst l)) as (y & Hget & Hy);
      [lia | by rewrite length_map | apply (inv_ps_hist _ _ _ Hinv) |].
    rewrite Hget. cbn [mbind option_bind].
    destruct (window_sum_snoc_ge 25 (map fst l) p y) as [E1 E2];
      [rewrite length_map; lia | lia | done |].
    pose proof (sum_Z_nonneg (drop (S (length (map fst l) - 25)) (map fst l))
      (Forall_drop _ _ _ (Forall_fst _ Hl))) as Hr.
    pose proof (Forall_lookup_1 _ _ _ _ (Forall_fst _ Hl) Hy) as Hy'.
    cbv beta in Hy'.
    rewrite E1, E2. rewrite E1 in Hb.
    rewrite (u32_small (_ + _ - y)) by lia.
    rewrite u32_small; [f_equal; lia | lia].
Qed.

Lemma als_window_update_inv :
  als_window_update s a = Some (window_sum 25 (map snd (l ++ [(p, a)]))).
Proof.
  unfold als_window_update. rewrite (inv_count _ _ _ Hinv), (inv_als_sum _ _ _ Hinv).
  rewrite map_app. cbn [map snd].
  pose proof (window_sum_bounds 25 _ (Forall_snd _ Hl)) as Hb.
  rewrite length_map in Hb.
  destruct (Z.ltb_spec (Z.of_nat (length l)) ALS_WINDOW) as [Hlt|Hge];
    unfold ALS_WINDOW in *.
  - rewrite window_sum_snoc_lt by (rewrite length_map; lia).
    rewrite u32_small by lia. done.
  - destruct (evicted_slot (alsHist s) (map snd l)) as (y & Hget & Hy);
      [lia | by rewrite length_map | apply (inv_als_hist _ _ _ Hinv) |].
    rewrite Hget. cbn [mbind option_bind].
    destruct (window_sum_snoc_ge 25 (map snd l) a y) as [E1 E2];
      [rewrite length_map; lia | lia | done |].
    pose proof (sum_Z_nonneg (drop (S (length (map snd l) - 25)) (map snd l))
      (Forall_drop _ _ _ (Forall_snd _ Hl))) as Hr.
    pose proof (Forall_lookup_1 _ _ _ _ (Forall_snd _ Hl) Hy) as Hy'.
    cbv beta in Hy'.
    rewrite E1, E2. rewrite E1 in Hb.
    rewrite u32_small; [f_equal; lia | lia].
Qed.

Hypothesis Hpt : DIST_LOOKUP_LEN <= Z.of_nat (length (proxTable r)).

Lemma run_inv_step :
  exists s', Update_Sensor s p a = Some s' /\ run_inv r (l ++ [(p, a)]) s'.
Proof.
  pose proof (window_sum_bounds 25 (map fst (l ++ [(p, a)]))) as Bp.
  pose proof (window_sum_bounds 25 (map snd (l ++ [(p, a)]))) as Ba.
  rewrite !length_map, length_app in Bp, Ba. cbn [length] in Bp, Ba.
  assert (Hl' : Forall sample_ok (l ++ [(p, a)])) by (apply Forall_app; split; [done|];
    repeat constructor; cbn; lia).
  specialize (Bp (Forall_fst _ Hl')). specialize (Ba (Forall_snd _ Hl')).
  unfold Update_Sensor. cbv zeta.
  rewrite ps_window_update_inv, als_window_update_inv. cbn [mbind option_bind].
  rewrite (inv_count _ _ _ Hinv).
  replace (Z.of_nat (length l) mod SENSOR_HIST_LEN) with (Z.of_nat (length l mod 50))
    by (rewrite Nat2Z.inj_mod; reflexivity).
  rewrite !arr_set_in by (rewrite ?(inv_ps_len _ _ _ Hinv), ?(inv_als_len _ _ _ Hinv);
    change (Z.to_nat SENSOR_HIST_LEN) with 50%nat; apply Nat.mod_upper_bound; lia).
  cbn [mbind option_bind].
  rewrite ps_mean_double_eq, als_mean_double_eq by lia.
  unfold PS_WINDOW, ALS_WINDOW.
  rewrite !mean_floor by lia.
  cbn [mbind option_bind].
  destruct (dl_scan_some (window_sum 25 (map fst (l ++ [(p, a)])) /
              Z.min (Z.of_nat (length l) + 1) 25) (proxTable s) distanceTable
              DIST_LOOKUP_LEN 16 0 256) as [d Hd];
    [done | rewrite (inv_table _ _ _ Hinv); done | done | lia | done | lia |].
  unfold Distance_Lookup. rewrite Hd. cbn [mbind option_bind].
  destruct (window_std_some 25 (<[(length l mod 50)%nat := p]> (psHist s))
    (fdiv (dbl (window_sum 25 (map fst (l ++ [(p, a)]))))
       (dbl (Z.min (Z.of_nat (length l) + 1) 25))) (Z.of_nat (length l)))
    as [psS ->]; [by rewrite length_insert, (inv_ps_len _ _ _ Hinv)|].
  destruct (window_std_some 25 (<[(length l mod 50)%nat := a]> (alsHist s))
    (fdiv (dbl (window_sum 25 (map snd (l ++ [(p, a)]))))
       (dbl (Z.min (Z.of_nat (length l) + 1) 25))) (Z.of_nat (length l)))
    as [alsS ->]; [by rewrite length_insert, (inv_als_len _ _ _ Hinv)|].
  cbn [mbind option_bind].
  eexists; split; [reflexivity|].
  destruct Hinv. constructor; cbn [sampleCount index proxTable psProxMin psProxMax
    psHist alsHist psWindowSum alsWindowSum psMean alsMean inProximity isBlocked];
    try done.
  - rewrite length_app. cbn [length]. rewrite u32_small; lia.
  - by rewrite length_insert.
  - by rewrite length_insert.
  - rewrite map_app. cbn [map fst].
    pose proof (hist_snoc (psHist s) (map fst l) p) as Hs.
    rewrite !length_map in Hs.
    intros t Ht. apply Hs; [done | | ].
    + intros t' Ht'. apply inv_ps_hist0. lia.
    + rewrite length_app, length_map. rewrite length_app in Ht. exact Ht.
  - rewrite map_app. cbn [map snd].
    pose proof (hist_snoc (alsHist s) (map snd l) a) as Hs.
    rewrite !length_map in Hs.
    intros t Ht. apply Hs; [done | | ].
    + intros t' Ht'. apply inv_als_hist0. lia.
    + rewrite length_app, length_map. rewrite length_app in Ht. exact Ht.
  - intros _. rewrite length_app. cbn [length]. unfold PS_WINDOW. do 2 f_equal. lia.
  - intros _. rewrite length_app. cbn [length]. unfold ALS_WINDOW. do 2 f_equal. lia.
  - rewrite prox_trace_snoc, inv_prox0, inv_min0, inv_max0. done.
  - apply (proj1 (update_isBlocked_consistent _ _ _ _)).
Qed.
End Step.

(** ** Runs from reset *)

Lemma run_from_reset (s0 : Sensor) (l : list (Z * Z)) :
  Z.of_nat (length l) < 2 ^ 32 -> Forall sample_ok l ->
  DIST_LOOKUP_LEN <= Z.of_nat (length (proxTable s0)) ->
  exists s, run (Reset_Sensor s0) l = Some s /\ run_inv (Reset_Sensor s0) l s.
Proof.
  intros Hn Hl Hpt. induction l as [|[p a] l IH] using rev_ind.
  - exists (Reset_Sensor s0). split; [done|]. apply run_inv_reset.
  - rewrite length_app in Hn. cbn [length] in Hn.
    apply Forall_app in Hl as [Hl Hx]. rewrite Forall_singleton in Hx.
    destruct Hx as [Hp Ha]. cbn in Hp, Ha.
    destruct IH as (s & Hrun & Hinv); [lia | done |].
    destruct (run_inv_step (Reset_Sensor s0) s l p a Hinv) as (s' & Hu & Hinv');
      [lia | done | done | done | done |].
    exists s'. split; [|done].
    rewrite run_app, Hrun. cbn [mbind option_bind run]. rewrite Hu. done.
Qed.

Lemma run_prox (s0 : Sensor) (l : list (Z * Z)) :
  Z.of_nat (length l) < 2 ^ 32 -> Forall sample_ok l ->
  DIST_LOOKUP_LEN <= Z.of_nat (length (proxTable s0)) ->
  option_map inProximity (run (Reset_Sensor s0) l) =
    Some (prox_trace (psProxMin s0) (psProxMax s0) 0 l).
Proof.
  intros Hn Hl Hpt.
  destruct (run_from_reset s0 l Hn Hl Hpt) as (s & -> & Hinv).
  cbn [option_map]. f_equal. exact (inv_prox _ _ _ Hinv).
Qed.

Lemma prox_after_reset (s0 : Sensor) (l : list (Z * Z)) :
  Z.of_nat (length l) < 2 ^ 32 -> Forall sample_ok l ->
  DIST_LOOKUP_LEN <= Z.of_nat (length (proxTable s0)) ->
  prox_after (Reset_Sensor s0) l =
    map (fun k => Some (prox_trace (psProxMin s0) (psProxMax s0) 0 (take k l)))
      (seq 1 (length l)).
Proof.
  intros Hn Hl Hpt. unfold prox_after. apply map_ext_in. intros k _.
  apply run_prox; [rewrite length_take; lia | by apply Forall_take | done].
Qed.

(** When [(int) sampleCount] is negative the loop stops at once with
    [i = 0], and the result is [sqrt(0.0 / 0)]. *)
Lemma window_std_neg (w : Z) (hist : list Z) (m : float) (sc : Z) :
  0 < w -> to_int32 sc < 0 ->
  window_std w hist m sc = Some (fsqrt (fdiv (dbl 0) (dbl 0))).
Proof.
  intros Hw Hsc. unfold window_std.
  destruct (Z.to_nat w) as [|n] eqn:E; [lia|]. cbn [std_loop].
  destruct (Z.leb_spec 0 (to_int32 sc - 0)); [lia|]. done.
Qed.

(** Closes a side condition on the concrete inputs. *)
Ltac concrete :=
  unfold DIST_LOOKUP_LEN, demo_sensor, demo_proxTable, demo_samples,
    scenario_samples, distanceTable; cbn; lia.

Lemma demo_samples_ok : Forall sample_ok demo_samples.
Proof. repeat constructor; unfold sample_ok; cbn; lia. Qed.

Lemma scenario_samples_ok : Forall sample_ok scenario_samples.
Proof. repeat constructor; unfold sample_ok; cbn; lia. Qed.

Lemma demo_run : run (Reset_Sensor demo_sensor) demo_samples = Some demo_state.
Proof. vm_compute. reflexivity. Qed.

Lemma demo_update (psVal alsVal : Z) :
  0 <= psVal <= 65535 -> 0 <= alsVal <= 65535 ->
  Update_Sensor demo_state psVal alsVal = Some (demo_after psVal alsVal).
Proof.
  intros Hp Ha. unfold demo_after.
  destruct (run_from_reset demo_sensor demo_samples) as (s & Hr & Hinv);
    [concrete | apply demo_samples_ok | concrete |].
  rewrite demo_run in Hr. injection Hr as <-.
  destruct (run_inv_step _ _ _ psVal alsVal Hinv) as (s' & -> & _);
    [concrete | apply demo_samples_ok | done | done | concrete |].
  done.
Qed.

(** ** Claims on [Reset_Sensor] and [Init_Sensor] *)

(** C8: [Reset_Sensor] zeroes the sample count, both window sums, the means
    and standard deviations, every slot of both histories and both flags,
    keeps [index], [psProxMin], [psProxMax] and [proxTable], and a second
    reset changes nothing. *)
Theorem Reset_Sensor_spec (s : Sensor) :
  let r := Reset_Sensor s in
  sampleCount r = 0 /\ psWindowSum r = 0 /\ alsWindowSum r = 0 /\
  psMean r = 0 /\ psSTD r = dbl 0 /\ alsMean r = 0 /\ alsSTD r = dbl 0 /\
  psHist r = repeat 0 (Z.to_nat SENSOR_HIST_LEN) /\
  alsHist r = repeat 0 (Z.to_nat SENSOR_HIST_LEN) /\
  inProximity r = 0 /\ isBlocked r = 0 /\
  index r = index s /\ psProxMin r = psProxMin s /\ psProxMax r = psProxMax s /\
  proxTable r = proxTable s /\
  Reset_Sensor r = r.
Proof. cbn. repeat split. Qed.

(** C9: neither [Reset_Sensor] nor [Init_Sensor] writes [estimatedDistance]:
    both leave the value the structure held before; [Update_Sensor] is the
    operation that assigns it, from [Distance_Lookup] of the new [psMean]. *)
Theorem estimatedDistance_not_reset (s : Sensor) (idx mn mx : Z) (pt : list Z) :
  estimatedDistance (Reset_Sensor s) = estimatedDistance s /\
  estimatedDistance (Init_Sensor s idx mn mx pt) = estimatedDistance s /\
  (forall psVal alsVal s', Update_Sensor s psVal alsVal = Some s' ->
   Distance_Lookup (psMean s') (proxTable s) distanceTable DIST_LOOKUP_LEN
     = Some (estimatedDistance s')).
Proof.
  split; [done|]. split; [done|].
  intros psVal alsVal s' H.
  update_facts H. done.
Qed.

(** ** Claims on the flags *)

(** C2: starting from a reset sensor, after any call [isBlocked] implies
    [inProximity]; [isBlocked] becomes set only in a call that leaves
    [inProximity] true, and a call that leaves [inProximity] false clears
    it. *)
Theorem flags_consistent (s0 s s' : Sensor) (l : list (Z * Z)) (psVal alsVal : Z) :
  run (Reset_Sensor s0) l = Some s ->
  Update_Sensor s psVal alsVal = Some s' ->
  (isBlocked s' <> 0 -> inProximity s' <> 0) /\
  (isBlocked s = 0 -> isBlocked s' <> 0 -> inProximity s' <> 0) /\
  (inProximity s' = 0 -> isBlocked s' = 0).
Proof.
  intros _ H.
  update_facts H.
  rewrite Hblk. apply update_isBlocked_consistent.
Qed.

(** The two calls on dark samples at 12 set both flags. *)
Lemma flags_consistent_witness :
  run (Reset_Sensor demo_sensor) demo_samples = Some demo_state /\
  Update_Sensor demo_state 12 0 = Some (demo_after 12 0) /\
  inProximity (demo_after 12 0) = 1 /\ isBlocked (demo_after 12 0) = 1 /\
  (isBlocked (demo_after 12 0) <> 0 -> inProximity (demo_after 12 0) <> 0).
Proof.
  assert (H1 : run (Reset_Sensor demo_sensor) demo_samples = Some demo_state)
    by (vm_compute; reflexivity).
  assert (H2 : Update_Sensor demo_state 12 0 = Some (demo_after 12 0))
    by (vm_compute; reflexivity).
  split; [exact H1|]. split; [exact H2|].
  split; [vm_compute; reflexivity|]. split; [vm_compute; reflexivity|].
  exact (proj1 (flags_consistent demo_sensor demo_state (demo_after 12 0)
    demo_samples 12 0 H1 H2)).
Defined.

(** C3: a raw proximity sample strictly between [psProxMin] and [psProxMax]
    leaves [inProximity] as it was, whatever the state. *)
Theorem inProximity_hysteresis_band (s s' : Sensor) (psVal alsVal : Z) :
  psProxMin s < psVal < psProxMax s ->
  Update_Sensor s psVal alsVal = Some s' ->
  inProximity s' = inProximity s.
Proof.
  intros Hb H.
  update_facts H.
  rewrite Hin. unfold update_inProximity.
  destruct (Z.leb_spec psVal (psProxMin s)); [lia|].
  destruct (Z.leb_spec (psProxMax s) psVal); [lia|].
  destruct (inProximity s =? 0); done.
Qed.

(** A sample of 7 between the thresholds 5 and 10 keeps the flag set. *)
Lemma inProximity_hysteresis_band_witness :
  psProxMin demo_state < 7 < psProxMax demo_state /\
  Update_Sensor demo_state 7 0 = Some (demo_after 7 0) /\
  inProximity (demo_after 7 0) = inProximity demo_state.
Proof.
  assert (H1 : psProxMin demo_state < 7 < psProxMax demo_state)
    by (vm_compute; split; reflexivity).
  assert (H2 : Update_Sensor demo_state 7 0 = Some (demo_after 7 0))
    by (vm_compute; reflexivity).
  split; [exact H1|]. split; [exact H2|].
  exact (inProximity_hysteresis_band demo_state (demo_after 7 0) 7 0 H1 H2).
Defined.

(** ** Claims on [Distance_Lookup] *)

(** C5: for tables of at least [tableLen >= 1] entries, [Distance_Lookup]
    returns [distTable[0]] when [psVal >= proxTable[0]]; at the first index
    [i > 0] with [psVal >= proxTable[i]] it returns the interpolation
    [distTable[i-1] + (psVal - proxTable[i-1]) * (distTable[i] - distTable[i-1])
    / (proxTable[i] - proxTable[i-1])] in double arithmetic; and when
    [psVal < proxTable[i]] for every [i < tableLen] it returns
    [distTable[tableLen - 1]]. *)
Theorem Distance_Lookup_spec (psVal : Z) (pt dt : list Z) (tableLen : Z) :
  1 <= tableLen <= 255 ->
  tableLen <= Z.of_nat (length pt) -> tableLen <= Z.of_nat (length dt) ->
  (tbl pt 0 <= psVal ->
   Distance_Lookup psVal pt dt tableLen = Some (dbl (tbl dt 0))) /\
  (forall i, 0 < i < tableLen -> tbl pt i <= psVal ->
   (forall j, 0 <= j < i -> psVal < tbl pt j) ->
   Distance_Lookup psVal pt dt tableLen =
     Some (fadd (dbl (tbl dt (i - 1)))
             (fdiv (fmul (fsub (dbl psVal) (dbl (tbl pt (i - 1))))
                         (fsub (dbl (tbl dt i)) (dbl (tbl dt (i - 1)))))
                   (fsub (dbl (tbl pt i)) (dbl (tbl pt (i - 1))))))) /\
  ((forall j, 0 <= j < tableLen -> psVal < tbl pt j) ->
   Distance_Lookup psVal pt dt tableLen = Some (dbl (tbl dt (tableLen - 1)))).
Proof.
  intros Hlen Hpt Hdt. split; [|split].
  - intros H0. unfold Distance_Lookup. cbn [dl_scan].
    destruct (Z.ltb_spec 0 tableLen); [|lia].
    rewrite (arr_get_tbl pt 0), (arr_get_tbl dt 0) by lia. cbn -[tbl].
    destruct (Z.leb_spec (tbl pt 0) psVal); [|lia].
    done.
  - intros i Hi Hle Hbelow.
    rewrite (Distance_Lookup_skip psVal pt dt tableLen i) by (done || lia).
    replace (256 - Z.to_nat i)%nat with (S (255 - Z.to_nat i)) by lia.
    cbn [dl_scan].
    destruct (Z.ltb_spec i tableLen); [|lia].
    rewrite (arr_get_tbl pt i) by lia. cbn -[tbl].
    destruct (Z.leb_spec (tbl pt i) psVal); [|lia].
    destruct (Z.eqb_spec i 0); [lia|].
    rewrite (arr_get_tbl dt (i - 1)), (arr_get_tbl pt (i - 1)),
      (arr_get_tbl dt i) by lia.
    done.
  - intros Hbelow.
    rewrite (Distance_Lookup_skip psVal pt dt tableLen tableLen) by (done || lia).
    replace (256 - Z.to_nat tableLen)%nat with (S (255 - Z.to_nat tableLen)) by lia.
    cbn [dl_scan].
    destruct (Z.ltb_spec tableLen tableLen); [lia|].
    rewrite (arr_get_tbl dt (tableLen - 1)) by lia. done.
Qed.

(** The source's [distanceTable] with [demo_proxTable]. *)
Lemma Distance_Lookup_spec_witness :
  (1 <= 16 <= 255 /\ 16 <= Z.of_nat (length demo_proxTable) /\
   16 <= Z.of_nat (length distanceTable)) /\
  (forall i, 0 < i < 16 -> tbl demo_proxTable i <= 100 ->
   (forall j, 0 <= j < i -> 100 < tbl demo_proxTable j) ->
   Distance_Lookup 100 demo_proxTable distanceTable 16 =
     Some (fadd (dbl (tbl distanceTable (i - 1)))
             (fdiv (fmul (fsub (dbl 100) (dbl (tbl demo_proxTable (i - 1))))
                         (fsub (dbl (tbl distanceTable i))
                               (dbl (tbl distanceTable (i - 1)))))
                   (fsub (dbl (tbl demo_proxTable i))
                         (dbl (tbl demo_proxTable (i - 1))))))).
Proof.
  assert (H1 : 1 <= 16 <= 255) by lia.
  assert (H2 : 16 <= Z.of_nat (length demo_proxTable)) by concrete.
  assert (H3 : 16 <= Z.of_nat (length distanceTable)) by concrete.
  split; [split; [exact H1 | split; [exact H2 | exact H3]]|].
  exact (proj1 (proj2 (Distance_Lookup_spec 100 demo_proxTable distanceTable 16
    H1 H2 H3))).
Defined.

(** C10: with [1 <= tableLen] and both tables of exactly [tableLen] entries,
    no access of [Distance_Lookup] leaves the arrays (it returns a value);
    with [tableLen = 0] the fallback reads [distTable[-1]], out of bounds. *)
Theorem Distance_Lookup_in_bounds (psVal : Z) (pt dt : list Z) (tableLen : Z) :
  1 <= tableLen <= 255 ->
  Z.of_nat (length pt) = tableLen -> Z.of_nat (length dt) = tableLen ->
  (exists d, Distance_Lookup psVal pt dt tableLen = Some d) /\
  Distance_Lookup psVal pt dt 0 = None.
Proof.
  intros Hlen Hpt Hdt. split.
  - apply (dl_scan_some psVal pt dt tableLen (Z.to_nat tableLen)); lia.
  - reflexivity.
Qed.

(** The source's call: [demo_proxTable], [distanceTable], 16 entries. *)
Lemma Distance_Lookup_in_bounds_witness :
  (1 <= 16 <= 255 /\ Z.of_nat (length demo_proxTable) = 16 /\
   Z.of_nat (length distanceTable) = 16) /\
  (exists d, Distance_Lookup 100 demo_proxTable distanceTable 16 = Some d).
Proof.
  assert (H1 : 1 <= 16 <= 255) by lia.
  assert (H2 : Z.of_nat (length demo_proxTable) = 16) by reflexivity.
  assert (H3 : Z.of_nat (length distanceTable) = 16) by reflexivity.
  split; [split; [exact H1 | split; [exact H2 | exact H3]]|].
  exact (proj1 (Distance_Lookup_in_bounds 100 demo_proxTable distanceTable 16
    H1 H2 H3)).
Defined.

(** ** Claims on the window statistics *)

(** C1: from a reset sensor, after any sequence of fewer than 2^32 calls
    with [uint16_t] samples (and a calibration table of [DIST_LOOKUP_LEN]
    entries), [sampleCount] is the number of calls and [psWindowSum] and
    [alsWindowSum] are the exact sums of the last [min(sampleCount, 25)]
    proximity and ambient samples. *)
Theorem window_sums_exact (s0 : Sensor) (l : list (Z * Z)) :
  Z.of_nat (length l) < 2 ^ 32 -> Forall sample_ok l ->
  DIST_LOOKUP_LEN <= Z.of_nat (length (proxTable s0)) ->
  exists s, run (Reset_Sensor s0) l = Some s /\
    sampleCount s = Z.of_nat (length l) /\
    psWindowSum s = window_sum 25 (map fst l) /\
    alsWindowSum s = window_sum 25 (map snd l).
Proof.
  intros Hn Hl Hpt.
  destruct (run_from_reset s0 l Hn Hl Hpt) as (s & Hr & Hinv).
  exists s. split; [done|].
  split; [exact (inv_count _ _ _ Hinv)|].
  split; [exact (inv_ps_sum _ _ _ Hinv) | exact (inv_als_sum _ _ _ Hinv)].
Qed.

Lemma window_sums_exact_witness :
  (Z.of_nat (length scenario_samples) < 2 ^ 32 /\ Forall sample_ok scenario_samples /\
   DIST_LOOKUP_LEN <= Z.of_nat (length (proxTable demo_sensor))) /\
  exists s, run (Reset_Sensor demo_sensor) scenario_samples = Some s /\
    sampleCount s = Z.of_nat (length scenario_samples) /\
    psWindowSum s = window_sum 25 (map fst scenario_samples) /\
    alsWindowSum s = window_sum 25 (map snd scenario_samples).
Proof.
  assert (H1 : Z.of_nat (length scenario_samples) < 2 ^ 32) by concrete.
  assert (H3 : DIST_LOOKUP_LEN <= Z.of_nat (length (proxTable demo_sensor)))
    by concrete.
  split; [split; [exact H1 | split; [exact scenario_samples_ok | exact H3]]|].
  exact (window_sums_exact demo_sensor scenario_samples H1 scenario_samples_ok H3).
Defined.

(** C6: under the hypotheses of C1, after every call [psMean] and
    [alsMean] are the floors of the window sums divided by [min(n, 25)],
    [n] the number of calls so far. *)
Theorem means_truncated (s0 : Sensor) (l : list (Z * Z)) :
  Z.of_nat (length l) < 2 ^ 32 -> Forall sample_ok l ->
  DIST_LOOKUP_LEN <= Z.of_nat (length (proxTable s0)) ->
  exists s, run (Reset_Sensor s0) l = Some s /\
    (l <> [] ->
     psMean s = psWindowSum s / Z.min (Z.of_nat (length l)) PS_WINDOW /\
     alsMean s = alsWindowSum s / Z.min (Z.of_nat (length l)) ALS_WINDOW).
Proof.
  intros Hn Hl Hpt.
  destruct (run_from_reset s0 l Hn Hl Hpt) as (s & Hr & Hinv).
  exists s. split; [done|]. intros Hne.
  split; [exact (inv_ps_mean _ _ _ Hinv Hne) | exact (inv_als_mean _ _ _ Hinv Hne)].
Qed.

Lemma means_truncated_witness :
  (Z.of_nat (length scenario_samples) < 2 ^ 32 /\ Forall sample_ok scenario_samples /\
   DIST_LOOKUP_LEN <= Z.of_nat (length (proxTable demo_sensor))) /\
  exists s, run (Reset_Sensor demo_sensor) scenario_samples = Some s /\
    (scenario_samples <> [] ->
     psMean s = psWindowSum s / Z.min (Z.of_nat (length scenario_samples)) PS_WINDOW /\
     alsMean s = alsWindowSum s / Z.min (Z.of_nat (length scenario_samples)) ALS_WINDOW).
Proof.
  assert (H1 : Z.of_nat (length scenario_samples) < 2 ^ 32) by concrete.
  assert (H3 : DIST_LOOKUP_LEN <= Z.of_nat (length (proxTable demo_sensor)))
    by concrete.
  split; [split; [exact H1 | split; [exact scenario_samples_ok | exact H3]]|].
  exact (means_truncated demo_sensor scenario_samples H1 scenario_samples_ok H3).
Defined.

(** C7 (the source's [(int) sensor->sampleCount] cast): after 2^31 calls
    from reset, all with the samples (7, 7), the next call finds
    [(int) sampleCount < 0]; both standard-deviation loops stop at [i = 0]
    and [psSTD] and [alsSTD] are [sqrt(0.0 / 0)], NaN, although every
    sample of both windows is 7. *)
Theorem std_nan_after_2_31 (s0 : Sensor) :
  DIST_LOOKUP_LEN <= Z.of_nat (length (proxTable s0)) ->
  exists s s', run (Reset_Sensor s0) (repeat (7, 7) (Z.to_nat (2 ^ 31))) = Some s /\
    sampleCount s = 2 ^ 31 /\
    Update_Sensor s 7 7 = Some s' /\
    PrimFloat.is_nan (psSTD s') = true /\ PrimFloat.is_nan (alsSTD s') = true.
Proof.
  intros Htab.
  assert (Hl : Forall sample_ok (repeat (7, 7) (Z.to_nat (2 ^ 31)))).
  { apply Forall_forall. intros x Hx. apply repeat_spec in Hx as ->.
    unfold sample_ok. cbn. lia. }
  assert (Hlen : Z.of_nat (length (repeat (7, 7) (Z.to_nat (2 ^ 31)))) = 2 ^ 31).
  { rewrite repeat_length. rewrite Z2Nat.id; lia. }
  destruct (run_from_reset s0 (repeat (7, 7) (Z.to_nat (2 ^ 31))))
    as (s & Hr & Hinv); [rewrite Hlen; lia | exact Hl | exact Htab |].
  destruct (run_inv_step _ _ _ 7 7 Hinv) as (s' & Hu & _);
    [rewrite Hlen; lia | exact Hl | lia | lia | exact Htab |].
  exists s, s'. split; [done|].
  assert (Hc : sampleCount s = 2 ^ 31) by (rewrite (inv_count _ _ _ Hinv); exact Hlen).
  split; [done|]. split; [done|].
  update_facts Hu.
  rewrite Hc, window_std_neg in Hps, Has by (unfold PS_WINDOW, ALS_WINDOW; reflexivity).
  injection Hps as <-. injection Has as <-.
  split; reflexivity.
Qed.

Lemma std_nan_after_2_31_witness :
  DIST_LOOKUP_LEN <= Z.of_nat (length (proxTable demo_sensor)) /\
  exists s s', run (Reset_Sensor demo_sensor) (repeat (7, 7) (Z.to_nat (2 ^ 31))) = Some s /\
    sampleCount s = 2 ^ 31 /\
    Update_Sensor s 7 7 = Some s' /\
    PrimFloat.is_nan (psSTD s') = true /\ PrimFloat.is_nan (alsSTD s') = true.
Proof.
  assert (H : DIST_LOOKUP_LEN <= Z.of_nat (length (proxTable demo_sensor))) by concrete.
  split; [exact H|]. exact (std_nan_after_2_31 demo_sensor H).
Defined.

(** ** The end-to-end hysteresis scenario *)

(** The scenario as the claim states it ([F,F,F,T,T,T,T,T,F]) is not what
    the source produces: from the seventh call on the flag is already
    cleared. *)
Lemma scenario_trace_counterexample :
  prox_after (Init_Sensor demo_sensor 1 5 10 demo_proxTable) scenario_samples
    <> map Some [0; 0; 0; 1; 1; 1; 1; 1; 0].
Proof. vm_compute. congruence. Qed.

(** C4 (as the source does it): after [Init_Sensor] with thresholds 5 and
    10, whatever the structure held and for any calibration table of
    [DIST_LOOKUP_LEN] entries, the samples [0,0,0,12,12,12,4,4,4] with
    ambient 50 give the flags [F,F,F,T,T,T,F,F,F]: the flag is set by the
    first 12 (call 4) and cleared by the first 4 (call 7). *)
Theorem scenario_trace (s : Sensor) (idx : Z) (pt : list Z) :
  DIST_LOOKUP_LEN <= Z.of_nat (length pt) ->
  prox_after (Init_Sensor s idx 5 10 pt) scenario_samples
    = map Some [0; 0; 0; 1; 1; 1; 0; 0; 0].
Proof.
  intros Hpt. unfold Init_Sensor.
  rewrite prox_after_reset; [reflexivity | concrete | apply scenario_samples_ok | exact Hpt].
Qed.

Lemma scenario_trace_witness :
  DIST_LOOKUP_LEN <= Z.of_nat (length demo_proxTable) /\
  prox_after (Init_Sensor demo_sensor 1 5 10 demo_proxTable) scenario_samples
    = map Some [0; 0; 0; 1; 1; 1; 0; 0; 0].
Proof.
  assert (H : DIST_LOOKUP_LEN <= Z.of_nat (length demo_proxTable)) by concrete.
  split; [exact H|]. exact (scenario_trace demo_sensor 1 demo_proxTable H).
Defined.

(** ** Further properties of the code *)

Lemma round_aux_nonneg (mx ex : Z) (lx : SpecFloat.location) :
  match SpecFloat.binary_round_aux FloatOps.prec FloatOps.emax false mx ex lx with
  | S754_infinity true | S754_finite true _ _ => False
  | _ => True
  end.
Proof.
  unfold SpecFloat.binary_round_aux.
  destruct (SpecFloat.shr_fexp _ _ _ _ _) as [mrs' e'].
  destruct (SpecFloat.shr_fexp _ _ _ _ _) as [mrs'' e''].
  destruct (SpecFloat.shr_m mrs''); [exact I| |exact I].
  destruct (Z.leb _ _); exact I.
Qed.

Lemma dbl_nonneg (z : Z) :
  match Prim2SF (dbl z) with
  | S754_infinity true | S754_finite true _ _ => False
  | _ => True
  end.
Proof.
  unfold dbl. rewrite FloatAxioms.of_uint63_spec.
  pose proof (Uint63.to_Z_bounded (Uint63.of_Z z)) as Hb.
  destruct (Uint63.to_Z (Uint63.of_Z z)) as [|p|p]; [exact I| |lia].
  cbn [SpecFloat.binary_normalize]. unfold SpecFloat.binary_round.
  destruct (SpecFloat.shl_align _ _ _) as [mz ez].
  apply round_aux_nonneg.
Qed.

Lemma fdiv_zero_nonneg (z : Z) :
  Prim2SF (fdiv (dbl z) (dbl 0)) = S754_nan \/
  Prim2SF (fdiv (dbl z) (dbl 0)) = S754_infinity false.
Proof.
  unfold fdiv. rewrite FloatAxioms.div_spec.
  assert (H0 : Prim2SF (dbl 0) = S754_zero false) by reflexivity.
  rewrite H0. pose proof (dbl_nonneg z) as Hz.
  destruct (Prim2SF (dbl z)) as [[]|[]| |[] m e]; cbn; try contradiction; auto.
Qed.

Lemma floor_cast_u16_not_finite (x : float) :
  Prim2SF x = S754_nan \/ Prim2SF x = S754_infinity false ->
  floor_cast_u16 x = None.
Proof.
  intros Hx. unfold floor_cast_u16.
  rewrite FloatAxioms.leb_spec, FloatAxioms.ltb_spec.
  destruct Hx as [Hx|Hx]; rewrite Hx;
    destruct (Prim2SF (PrimFloat.of_uint63 (trunc63 x))) as [[]|[]| |[] m e],
      (Prim2SF (PrimFloat.of_uint63 (trunc63 x + 1)%uint63)) as [[]|[]| |[] m' e'];
    cbn; rewrite ?andb_false_r; reflexivity.
Qed.

(** X1: a call made when [sampleCount] is [2^32 - 1] has undefined
    behaviour: [sampleCount + 1] wraps to 0, the PS mean is
    [psWindowSum / 0.0] (infinite or NaN) and its conversion to [uint16_t]
    is out of range. *)
Theorem Update_Sensor_wrap (s : Sensor) (psVal alsVal : Z) :
  sampleCount s = 2 ^ 32 - 1 -> Update_Sensor s psVal alsVal = None.
Proof.
  intros Hsc. unfold Update_Sensor. cbv zeta.
  destruct (ps_window_update s psVal) as [psWS|]; [|done]; cbn [mbind option_bind].
  destruct (als_window_update s alsVal) as [alsWS|]; [|done]; cbn [mbind option_bind].
  destruct (arr_set _ _ psVal) as [psH|]; [|done]; cbn [mbind option_bind].
  destruct (arr_set _ _ alsVal) as [alsH|]; [|done]; cbn [mbind option_bind].
  assert (E : ps_mean_double psWS (sampleCount s) = fdiv (dbl psWS) (dbl 0)).
  { unfold ps_mean_double. rewrite Hsc. reflexivity. }
  rewrite E, (floor_cast_u16_not_finite (fdiv (dbl psWS) (dbl 0)))
    by apply fdiv_zero_nonneg.
  done.
Qed.

Lemma Update_Sensor_wrap_witness :
  sampleCount demo_wrapped = 2 ^ 32 - 1 /\ Update_Sensor demo_wrapped 7 7 = None.
Proof.
  assert (H : sampleCount demo_wrapped = 2 ^ 32 - 1) by reflexivity.
  split; [exact H|]. exact (Update_Sensor_wrap demo_wrapped 7 7 H).
Defined.

(** X2: from reset, with fewer than 2^32 calls on [uint16_t] samples and
    a calibration table of at least [DIST_LOOKUP_LEN] entries, no call of
    the run has undefined behaviour. *)
Theorem run_defined (s0 : Sensor) (l : list (Z * Z)) :
  Z.of_nat (length l) < 2 ^ 32 -> Forall sample_ok l ->
  DIST_LOOKUP_LEN <= Z.of_nat (length (proxTable s0)) ->
  run (Reset_Sensor s0) l <> None.
Proof.
  intros Hn Hl Htab. destruct (run_from_reset s0 l Hn Hl Htab) as (s & -> & _).
  discriminate.
Qed.

Lemma run_defined_witness :
  (Z.of_nat (length scenario_samples) < 2 ^ 32 /\ Forall sample_ok scenario_samples /\
   DIST_LOOKUP_LEN <= Z.of_nat (length (proxTable demo_sensor))) /\
  run (Reset_Sensor demo_sensor) scenario_samples <> None.
Proof.
  assert (H1 : Z.of_nat (length scenario_samples) < 2 ^ 32) by concrete.
  assert (H3 : DIST_LOOKUP_LEN <= Z.of_nat (length (proxTable demo_sensor)))
    by concrete.
  split; [split; [exact H1 | split; [exact scenario_samples_ok | exact H3]]|].
  exact (run_defined demo_sensor scenario_samples H1 scenario_samples_ok H3).
Defined.

Lemma std_loop_count (hist : list Z) (m : float) (c i fuel : nat) (acc : float) :
  length hist = 50%nat -> (i <= c + 1)%nat ->
  std_loop hist m (Z.of_nat c) (Z.of_nat i) fuel acc =
  Some (fold_left (fun acc j => fadd acc (c_pow2 (fsub (dbl
          (tbl hist ((Z.of_nat c - Z.of_nat j) mod SENSOR_HIST_LEN))) m)))
          (seq i (Nat.min fuel (c + 1 - i))) acc,
        Z.of_nat (i + Nat.min fuel (c + 1 - i))).
Proof.
  intros Hl. revert i acc. induction fuel as [|fuel IH]; intros i acc Hi; cbn [std_loop].
  - rewrite Nat.min_0_l, Nat.add_0_r. done.
  - destruct (Z.leb_spec 0 (Z.of_nat c - Z.of_nat i)).
    + rewrite (arr_get_tbl hist) by (unfold SENSOR_HIST_LEN; rewrite Hl;
        pose proof (Z.mod_pos_bound (Z.of_nat c - Z.of_nat i) 50); lia).
      cbn [mbind option_bind].
      replace (Z.of_nat i + 1) with (Z.of_nat (S i)) by lia.
      rewrite IH by lia.
      replace (Nat.min (S fuel) (c + 1 - i)) with (S (Nat.min fuel (c + 1 - S i))) by lia.
      cbn [seq fold_left]. do 3 f_equal. lia.
    + replace (c + 1 - i)%nat with 0%nat by lia.
      rewrite Nat.min_0_r, Nat.add_0_r. done.
Qed.

Lemma fold_left_map_seq {A : Type} (F : A -> Z -> A) (g : nat -> Z) (js : list nat) (acc : A) :
  fold_left (fun acc j => F acc (g j)) js acc = fold_left F (map g js) acc.
Proof. revert acc. induction js as [|j js IH]; intros acc; cbn; [done|apply IH]. Qed.

Lemma map_seq_rev_drop (xs : list Z) (c k : nat) :
  length xs = S c -> (k <= S c)%nat ->
  map (fun j => xs !!! (c - j)%nat) (seq 0 k) = rev (drop (S c - k) xs).
Proof.
  intros Hl. induction k as [|k IH]; intros Hk.
  - rewrite Nat.sub_0_r, <- Hl, drop_all. done.
  - rewrite seq_S, map_app, IH by lia. cbn [map].
    destruct (lookup_lt_is_Some_2 xs (S c - S k)) as [y Hy]; [lia|].
    rewrite (drop_S _ _ _ Hy). cbn [rev]. f_equal; [do 2 f_equal; lia|].
    f_equal. apply list_lookup_total_correct.
    replace (c - k)%nat with (S c - S k)%nat by lia. exact Hy.
Qed.

(** The loop over a history that holds the last samples of a run. *)
Lemma window_std_run (hist xs : list Z) (m : float) (c : nat) :
  length hist = 50%nat -> length xs = S c -> Z.of_nat c < 2 ^ 31 ->
  (forall t : nat, (t < S c < t + 50)%nat -> hist !! (t mod 50)%nat = xs !! t) ->
  window_std 25 hist m (Z.of_nat c) =
  Some (fsqrt (fdiv (fold_left (fun acc x => fadd acc (c_pow2 (fsub (dbl x) m)))
                      (rev (drop (S c - 25) xs)) (dbl 0))
                (dbl (Z.of_nat (length (drop (S c - 25) xs)))))).
Proof.
  intros Hh Hx Hc Hhist. unfold window_std.
  assert (E : to_int32 (Z.of_nat c) = Z.of_nat c)
    by (unfold to_int32; destruct (Z.ltb_spec (Z.of_nat c) (2 ^ 31)); lia).
  rewrite E. change 0 with (Z.of_nat 0).
  rewrite std_loop_count by (done || lia). cbn [mbind option_bind fst snd].
  rewrite length_drop, Hx.
  replace (Nat.min (Z.to_nat 25) (c + 1 - 0)) with (S c - (S c - 25))%nat by lia.
  replace (0 + (S c - (S c - 25)))%nat with (S c - (S c - 25))%nat by lia.
  do 3 f_equal.
  rewrite (fold_left_map_seq (fun acc x => fadd acc (c_pow2 (fsub (dbl x) m)))
    (fun j => tbl hist ((Z.of_nat c - Z.of_nat j) mod SENSOR_HIST_LEN))).
  f_equal.
  transitivity (map (fun j => xs !!! (c - j)%nat) (seq 0 (S c - (S c - 25))));
    [| rewrite map_seq_rev_drop by lia; do 2 f_equal; lia].
  apply map_ext_in. intros j Hj. apply in_seq in Hj.
  unfold tbl, SENSOR_HIST_LEN.
  replace ((Z.of_nat c - Z.of_nat j) mod 50) with (Z.of_nat ((c - j) mod 50))
    by (rewrite Nat2Z.inj_mod; f_equal; lia).
  rewrite Nat2Z.id.
  assert (H := Hhist (c - j)%nat ltac:(lia)).
  destruct (lookup_lt_is_Some_2 xs (c - j)) as [y Hy]; [lia|].
  rewrite Hy in H.
  rewrite (list_lookup_total_correct _ _ _ H), (list_lookup_total_correct _ _ _ Hy). done.
Qed.

Lemma window_len (xs : list Z) (c : nat) :
  length xs = S c ->
  Z.of_nat (length (drop (S c - 25) xs)) = Z.min (Z.of_nat c + 1) 25.
Proof. intros H. rewrite length_drop, H. lia. Qed.

(** X3: from reset, after [n] calls with [1 <= n <= 2^31], [psSTD] and
    [alsSTD] are the square roots of the mean squared deviation of the window
    (the last [min(n, 25)] samples of the channel) from its double mean,
    summed newest sample first. *)
Theorem std_window_formula (s0 : Sensor) (l : list (Z * Z)) :
  l <> [] -> Z.of_nat (length l) <= 2 ^ 31 -> Forall sample_ok l ->
  DIST_LOOKUP_LEN <= Z.of_nat (length (proxTable s0)) ->
  exists s, run (Reset_Sensor s0) l = Some s /\
    psSTD s = window_stddev (drop (length l - 25) (map fst l)) /\
    alsSTD s = window_stddev (drop (length l - 25) (map snd l)).
Proof.
  intros Hne Hn Hl Htab. destruct l as [|x l] using rev_ind; [done|]. clear IHl.
  destruct x as [p a].
  rewrite length_app in Hn |- *. cbn [length] in Hn |- *.
  apply Forall_app in Hl as [Hl Hx]. rewrite Forall_singleton in Hx.
  destruct Hx as [Hp Ha]. cbn in Hp, Ha.
  destruct (run_from_reset s0 l) as (s & Hrun & Hinv); [lia | done | done |].
  destruct (run_inv_step _ _ _ p a Hinv) as (s' & Hu & Hinv');
    [lia | done | done | done | done |].
  exists s'. split.
  { rewrite run_app, Hrun. cbn [mbind option_bind run]. rewrite Hu. done. }
  pose proof (inv_ps_hist _ _ _ Hinv') as Hph'. pose proof (inv_als_hist _ _ _ Hinv') as Hah'.
  pose proof (inv_ps_sum _ _ _ Hinv') as Hpsum. pose proof (inv_als_sum _ _ _ Hinv') as Hasum.
  pose proof (inv_ps_len _ _ _ Hinv') as Hpl. pose proof (inv_als_len _ _ _ Hinv') as Hal.
  pose proof (inv_count _ _ _ Hinv) as Hcnt.
  update_facts Hu.
  rewrite length_app in Hph', Hah'. cbn [length] in Hph', Hah'.
  rewrite Nat.add_1_r in Hph', Hah' |- *.
  rewrite Hcnt in Hps, Has, Hpmd, Hamd.
  rewrite ps_mean_double_eq in Hpmd by lia. rewrite als_mean_double_eq in Hamd by lia.
  subst psMD alsMD psH alsH.
  unfold PS_WINDOW, ALS_WINDOW in *.
  rewrite (window_std_run (psHist s') (map fst (l ++ [(p, a)])) _ (length l)) in Hps;
    [| done | rewrite length_map, length_app; cbn; lia | lia |
       intros t Ht; apply Hph'; lia].
  rewrite (window_std_run (alsHist s') (map snd (l ++ [(p, a)])) _ (length l)) in Has;
    [| done | rewrite length_map, length_app; cbn; lia | lia |
       intros t Ht; apply Hah'; lia].
  injection Hps as <-. injection Has as <-.
  rewrite Hpsum, Hasum. unfold window_stddev, window_sum.
  rewrite !length_map, length_app. cbn [length]. rewrite Nat.add_1_r.
  rewrite !(window_len _ (length l)) by (rewrite length_map, length_app; cbn; lia).
  done.
Qed.

Lemma std_window_formula_witness :
  (scenario_samples <> [] /\ Z.of_nat (length scenario_samples) <= 2 ^ 31 /\
   Forall sample_ok scenario_samples /\
   DIST_LOOKUP_LEN <= Z.of_nat (length (proxTable demo_sensor))) /\
  exists s, run (Reset_Sensor demo_sensor) scenario_samples = Some s /\
    psSTD s = window_stddev (drop (length scenario_samples - 25) (map fst scenario_samples)) /\
    alsSTD s = window_stddev (drop (length scenario_samples - 25) (map snd scenario_samples)).
Proof.
  assert (H0 : scenario_samples <> []) by discriminate.
  assert (H1 : Z.of_nat (length scenario_samples) <= 2 ^ 31) by concrete.
  assert (H3 : DIST_LOOKUP_LEN <= Z.of_nat (length (proxTable demo_sensor)))
    by concrete.
  split; [split; [exact H0 | split; [exact H1 | split; [exact scenario_samples_ok | exact H3]]]|].
  exact (std_window_formula demo_sensor scenario_samples H0 H1 scenario_samples_ok H3).
Defined.

Lemma run_cons (s : Sensor) (p a : Z) (l : list (Z * Z)) (s' : Sensor) :
  run s ((p, a) :: l) = Some s' ->
  exists s1, Update_Sensor s p a = Some s1 /\ run s1 l = Some s'.
Proof.
  cbn [run]. destruct (Update_Sensor s p a) as [s1|]; [|done].
  cbn [mbind option_bind]. eauto.
Qed.

Lemma run_frame (s0 s : Sensor) (l : list (Z * Z)) :
  run s0 l = Some s ->
  index s = index s0 /\ proxTable s = proxTable s0 /\
  psProxMin s = psProxMin s0 /\ psProxMax s = psProxMax s0.
Proof.
  revert s0. induction l as [|[p a] l IH]; intros s0 H.
  - injection H as <-. done.
  - apply run_cons in H as (s1 & Hu & Hr).
    destruct (IH s1 Hr) as (E1 & E2 & E3 & E4).
    update_facts Hu. rewrite E1, E2, E3, E4. done.
Qed.

Lemma run_inProximity (s0 s : Sensor) (l : list (Z * Z)) :
  run s0 l = Some s ->
  inProximity s = prox_trace (psProxMin s0) (psProxMax s0) (inProximity s0) l.
Proof.
  revert s0. induction l as [|[p a] l IH]; intros s0 H.
  - injection H as <-. done.
  - apply run_cons in H as (s1 & Hu & Hr).
    rewrite (IH s1 Hr). update_facts Hu. rewrite Hin, Hmn, Hmx. done.
Qed.

Lemma prox_trace_fst (mn mx inP : Z) (l1 l2 : list (Z * Z)) :
  map fst l1 = map fst l2 -> prox_trace mn mx inP l1 = prox_trace mn mx inP l2.
Proof.
  revert inP l2. induction l1 as [|x l1 IH]; intros inP [|y l2] H; try done.
  cbn in H. injection H as Hxy Hl. unfold prox_trace in *. cbn [fold_left].
  rewrite Hxy. apply IH, Hl.
Qed.

Lemma Update_flags01 (s s' : Sensor) (psVal alsVal : Z) :
  Update_Sensor s psVal alsVal = Some s' ->
  flag01 (inProximity s) -> flag01 (isBlocked s) ->
  flag01 (inProximity s') /\ flag01 (isBlocked s').
Proof.
  intros Hu Hi Hb. update_facts Hu. unfold flag01 in *.
  split.
  - rewrite Hin. unfold update_inProximity.
    destruct (negb (inProximity s =? 0) && (psVal <=? psProxMin s)),
      ((inProximity s =? 0) && (psProxMax s <=? psVal)); auto.
  - rewrite Hblk. unfold update_isBlocked.
    destruct ((isBlocked s =? 0) && negb (inProximity s' =? 0) && (alsMean s' =? 0)
      && PrimFloat.eqb (alsSTD s') (dbl 0)),
      (negb (isBlocked s =? 0) && (inProximity s' =? 0)); auto.
Qed.

(** X4: from reset, after any defined run both flags are 0 or 1. *)
Theorem flags_boolean (s0 s : Sensor) (l : list (Z * Z)) :
  run (Reset_Sensor s0) l = Some s ->
  (inProximity s = 0 \/ inProximity s = 1) /\ (isBlocked s = 0 \/ isBlocked s = 1).
Proof.
  enough (G : forall s1, flag01 (inProximity s1) -> flag01 (isBlocked s1) ->
            run s1 l = Some s -> flag01 (inProximity s) /\ flag01 (isBlocked s)).
  { intros H. apply (G (Reset_Sensor s0)); [left; done | left; done | exact H]. }
  induction l as [|[p a] l IH]; intros s1 Hi Hb H.
  - injection H as <-. done.
  - apply run_cons in H as (s2 & Hu & Hr).
    destruct (Update_flags01 _ _ _ _ Hu Hi Hb). apply (IH s2); done.
Qed.

Lemma flags_boolean_witness :
  run (Reset_Sensor demo_sensor) demo_samples = Some demo_state /\
  (inProximity demo_state = 0 \/ inProximity demo_state = 1) /\
  (isBlocked demo_state = 0 \/ isBlocked demo_state = 1).
Proof.
  assert (H : run (Reset_Sensor demo_sensor) demo_samples = Some demo_state)
    by (vm_compute; reflexivity).
  split; [exact H|]. exact (flags_boolean demo_sensor demo_state demo_samples H).
Defined.

(** X5: from the same state, two defined runs whose proximity samples
    are the same end with the same [inProximity], whatever the ambient
    samples (and hence the means and deviations) were. *)
Theorem inProximity_ps_only (s0 s1 s2 : Sensor) (l1 l2 : list (Z * Z)) :
  run s0 l1 = Some s1 -> run s0 l2 = Some s2 -> map fst l1 = map fst l2 ->
  inProximity s1 = inProximity s2.
Proof.
  intros H1 H2 E. rewrite (run_inProximity _ _ _ H1), (run_inProximity _ _ _ H2).
  apply prox_trace_fst, E.
Qed.

Lemma inProximity_ps_only_witness :
  run (Reset_Sensor demo_sensor) demo_samples = Some demo_state /\
  run (Reset_Sensor demo_sensor) demo_samples_bright =
    Some (default demo_state (run (Reset_Sensor demo_sensor) demo_samples_bright)) /\
  map fst demo_samples = map fst demo_samples_bright /\
  inProximity demo_state =
    inProximity (default demo_state (run (Reset_Sensor demo_sensor) demo_samples_bright)).
Proof.
  assert (H1 : run (Reset_Sensor demo_sensor) demo_samples = Some demo_state)
    by (vm_compute; reflexivity).
  assert (H2 : run (Reset_Sensor demo_sensor) demo_samples_bright =
    Some (default demo_state (run (Reset_Sensor demo_sensor) demo_samples_bright)))
    by (vm_compute; reflexivity).
  assert (H3 : map fst demo_samples = map fst demo_samples_bright) by reflexivity.
  split; [exact H1|]. split; [exact H2|]. split; [exact H3|].
  exact (inProximity_ps_only _ _ _ _ _ H1 H2 H3).
Defined.

(** X6: resetting after any defined run gives the same structure as
    resetting the starting state, except for [estimatedDistance], which
    keeps the run's last value. *)
Theorem reset_after_run (s0 s : Sensor) (l : list (Z * Z)) :
  run s0 l = Some s ->
  Reset_Sensor s = with_estimatedDistance (Reset_Sensor s0) (estimatedDistance s).
Proof.
  intros H. destruct (run_frame _ _ _ H) as (E1 & E2 & E3 & E4).
  unfold Reset_Sensor, with_estimatedDistance. cbn [index proxTable psProxMin psProxMax].
  rewrite E1, E2, E3, E4. done.
Qed.

Lemma reset_after_run_witness :
  run (Reset_Sensor demo_sensor) demo_samples = Some demo_state /\
  Reset_Sensor demo_state =
    with_estimatedDistance (Reset_Sensor (Reset_Sensor demo_sensor))
      (estimatedDistance demo_state).
Proof.
  assert (H : run (Reset_Sensor demo_sensor) demo_samples = Some demo_state)
    by (vm_compute; reflexivity).
  split; [exact H|]. exact (reset_after_run _ _ _ H).
Defined.

(** X7: a call sets [isBlocked] only when, after it, [inProximity] is set,
    [alsMean] is 0 and [alsSTD] compares equal to 0.0; it clears
    [isBlocked] only when [inProximity] is 0 after it. *)
Theorem isBlocked_transitions (s s' : Sensor) (psVal alsVal : Z) :
  Update_Sensor s psVal alsVal = Some s' ->
  (isBlocked s = 0 -> isBlocked s' <> 0 ->
   inProximity s' <> 0 /\ alsMean s' = 0 /\ PrimFloat.eqb (alsSTD s') (dbl 0) = true) /\
  (isBlocked s <> 0 -> isBlocked s' = 0 -> inProximity s' = 0).
Proof.
  intros Hu. update_facts Hu. rewrite Hblk. unfold update_isBlocked.
  destruct (Z.eqb_spec (isBlocked s) 0), (Z.eqb_spec (inProximity s') 0),
    (Z.eqb_spec (alsMean s') 0), (PrimFloat.eqb (alsSTD s') (dbl 0)); cbn; split; intros; lia.
Qed.

Lemma isBlocked_transitions_witness :
  Update_Sensor demo_state 3 0 = Some (demo_after 3 0) /\
  isBlocked demo_state <> 0 /\ isBlocked (demo_after 3 0) = 0 /\
  inProximity (demo_after 3 0) = 0.
Proof.
  assert (H : Update_Sensor demo_state 3 0 = Some (demo_after 3 0))
    by (vm_compute; reflexivity).
  assert (H1 : isBlocked demo_state <> 0) by (vm_compute; discriminate).
  assert (H2 : isBlocked (demo_after 3 0) = 0) by (vm_compute; reflexivity).
  split; [exact H|]. split; [exact H1|]. split; [exact H2|].
  exact (proj2 (isBlocked_transitions _ _ _ _ H) H1 H2).
Defined.

(** X8: any defined call made with [2^31 <= sampleCount < 2^32] sets
    [psSTD] and [alsSTD] to NaN ([(int) sampleCount] is negative, both loops
    stop at [i = 0]). *)
Theorem std_nan_high_count (s s' : Sensor) (psVal alsVal : Z) :
  Update_Sensor s psVal alsVal = Some s' ->
  2 ^ 31 <= sampleCount s < 2 ^ 32 ->
  PrimFloat.is_nan (psSTD s') = true /\ PrimFloat.is_nan (alsSTD s') = true.
Proof.
  intros Hu Hc. update_facts Hu.
  assert (Hneg : to_int32 (sampleCount s) < 0).
  { unfold to_int32. destruct (Z.ltb_spec (sampleCount s) (2 ^ 31)); lia. }
  rewrite window_std_neg in Hps, Has by (unfold PS_WINDOW, ALS_WINDOW; lia || done).
  injection Hps as <-. injection Has as <-. split; reflexivity.
Qed.

Lemma std_nan_high_count_witness :
  Update_Sensor demo_big 7 7 = Some (default demo_big (Update_Sensor demo_big 7 7)) /\
  2 ^ 31 <= sampleCount demo_big < 2 ^ 32 /\
  PrimFloat.is_nan (psSTD (default demo_big (Update_Sensor demo_big 7 7))) = true /\
  PrimFloat.is_nan (alsSTD (default demo_big (Update_Sensor demo_big 7 7))) = true.
Proof.
  assert (H : Update_Sensor demo_big 7 7 = Some (default demo_big (Update_Sensor demo_big 7 7)))
    by (vm_compute; reflexivity).
  assert (H1 : 2 ^ 31 <= sampleCount demo_big < 2 ^ 32) by (cbn [sampleCount demo_big]; lia).
  split; [exact H|]. split; [exact H1|].
  exact (std_nan_high_count _ _ _ _ H H1).
Defined.

(** X9: from reset, after fewer than 2^32 calls, slot [t mod 50] of each
    history holds the [t]-th sample of its channel, for each of the last 50
    samples. *)
Theorem history_last_50 (s0 : Sensor) (l : list (Z * Z)) :
  Z.of_nat (length l) < 2 ^ 32 -> Forall sample_ok l ->
  DIST_LOOKUP_LEN <= Z.of_nat (length (proxTable s0)) ->
  exists s, run (Reset_Sensor s0) l = Some s /\
    forall t : nat, (t < length l < t + 50)%nat ->
      psHist s !! (t mod 50)%nat = map fst l !! t /\
      alsHist s !! (t mod 50)%nat = map snd l !! t.
Proof.
  intros Hn Hl Htab. destruct (run_from_reset s0 l Hn Hl Htab) as (s & Hr & Hinv).
  exists s. split; [done|]. intros t Ht.
  split; [apply (inv_ps_hist _ _ _ Hinv) | apply (inv_als_hist _ _ _ Hinv)]; done.
Qed.

Lemma history_last_50_witness :
  (Z.of_nat (length scenario_samples) < 2 ^ 32 /\ Forall sample_ok scenario_samples /\
   DIST_LOOKUP_LEN <= Z.of_nat (length (proxTable demo_sensor))) /\
  exists s, run (Reset_Sensor demo_sensor) scenario_samples = Some s /\
    forall t : nat, (t < length scenario_samples < t + 50)%nat ->
      psHist s !! (t mod 50)%nat = map fst scenario_samples !! t /\
      alsHist s !! (t mod 50)%nat = map snd scenario_samples !! t.
Proof.
  assert (H1 : Z.of_nat (length scenario_samples) < 2 ^ 32) by concrete.
  assert (H3 : DIST_LOOKUP_LEN <= Z.of_nat (length (proxTable demo_sensor)))
    by concrete.
  split; [split; [exact H1 | split; [exact scenario_samples_ok | exact H3]]|].
  exact (history_last_50 demo_sensor scenario_samples H1 scenario_samples_ok H3).
Defined.

Lemma sum_Z_range (lo hi : Z) (xs : list Z) :
  Forall (fun x => lo <= x <= hi) xs ->
  Z.of_nat (length xs) * lo <= sum_Z xs <= Z.of_nat (length xs) * hi.
Proof. induction 1 as [|x xs Hx _ IH]; cbn [sum_Z length]; lia. Qed.

Lemma div_window (lo hi W k : Z) :
  0 < k -> k * lo <= W <= k * hi -> lo <= W / k <= hi.
Proof.
  intros Hk HW. split.
  - apply Z.div_le_lower_bound; lia.
  - apply Z.div_le_upper_bound; lia.
Qed.

(** X10: from reset, if every sample of a channel's window (the last
    [min(n, 25)] samples) lies in [[lo, hi]], so does the channel's mean
    after the call. *)
Theorem mean_within_window (s0 : Sensor) (l : list (Z * Z)) (lo hi : Z) :
  l <> [] -> Z.of_nat (length l) < 2 ^ 32 -> Forall sample_ok l ->
  DIST_LOOKUP_LEN <= Z.of_nat (length (proxTable s0)) ->
  exists s, run (Reset_Sensor s0) l = Some s /\
    (Forall (fun x => lo <= x <= hi) (drop (length l - 25) (map fst l)) ->
     lo <= psMean s <= hi) /\
    (Forall (fun x => lo <= x <= hi) (drop (length l - 25) (map snd l)) ->
     lo <= alsMean s <= hi).
Proof.
  intros Hne Hn Hl Htab. destruct (run_from_reset s0 l Hn Hl Htab) as (s & Hr & Hinv).
  assert (Hk : 0 < Z.min (Z.of_nat (length l)) 25) by (destruct l; [done|cbn; lia]).
  exists s. split; [done|]. split; intros Hw.
  - rewrite (inv_ps_mean _ _ _ Hinv Hne), (inv_ps_sum _ _ _ Hinv). unfold PS_WINDOW.
    apply div_window; [done|]. apply sum_Z_range in Hw.
    rewrite length_drop, length_map in Hw. unfold window_sum. rewrite length_map.
    replace (Z.min (Z.of_nat (length l)) 25) with
      (Z.of_nat (length l - (length l - 25))) by lia. done.
  - rewrite (inv_als_mean _ _ _ Hinv Hne), (inv_als_sum _ _ _ Hinv). unfold ALS_WINDOW.
    apply div_window; [done|]. apply sum_Z_range in Hw.
    rewrite length_drop, length_map in Hw. unfold window_sum. rewrite length_map.
    replace (Z.min (Z.of_nat (length l)) 25) with
      (Z.of_nat (length l - (length l - 25))) by lia. done.
Qed.

Lemma mean_within_window_witness :
  (scenario_samples <> [] /\ Z.of_nat (length scenario_samples) < 2 ^ 32 /\
   Forall sample_ok scenario_samples /\
   DIST_LOOKUP_LEN <= Z.of_nat (length (proxTable demo_sensor))) /\
  exists s, run (Reset_Sensor demo_sensor) scenario_samples = Some s /\
    (Forall (fun x => 0 <= x <= 12) (drop (length scenario_samples - 25) (map fst scenario_samples)) ->
     0 <= psMean s <= 12) /\
    (Forall (fun x => 0 <= x <= 12) (drop (length scenario_samples - 25) (map snd scenario_samples)) ->
     0 <= alsMean s <= 12).
Proof.
  assert (H0 : scenario_samples <> []) by discriminate.
  assert (H1 : Z.of_nat (length scenario_samples) < 2 ^ 32) by concrete.
  assert (H3 : DIST_LOOKUP_LEN <= Z.of_nat (length (proxTable demo_sensor)))
    by concrete.
  split; [split; [exact H0 | split; [exact H1 | split; [exact scenario_samples_ok | exact H3]]]|].
  exact (mean_within_window demo_sensor scenario_samples 0 12 H0 H1 scenario_samples_ok H3).
Defined.
